(** * Archex [process_data.py]: transform dispatch, size oracle, entry point

    A shallow embedding of [src/process_data.py] and the properties of its
    natural-language specification.

    The script calls into the Python runtime (the [int] builtin, [zlib],
    [lzma], [base64], [cryptography.fernet], [os], file objects).  Those
    calls are the fields of the class [Runtime]; everything the script
    itself does (length checks, [try]/[except], logging, dispatch,
    [sys.exit]) is modelled here in a small monad that threads the file
    system, collects the observable events of a run in order, and
    distinguishes a normal return from a raised exception and from
    [sys.exit].

    The log file [archextract.log] that [logging.basicConfig] opens when
    the module is loaded is the stream of [Log] events of a run; it is not
    a file of the modelled file system, and writing to it does not fail. *)

From Stdlib Require Import ZArith List String Ascii Strings.Byte Bool Lia.
From Stdlib Require Import DecimalString.
Import ListNotations.

Local Open Scope string_scope.
Local Open Scope Z_scope.

(** ** Data *)

(** A Python [bytes] object. *)
Definition bytes := list byte.

(** Python's [len] on [bytes]; Python integers are unbounded. *)
Definition len (b : bytes) : Z := Z.of_nat (List.length b).

(** [b[:n]] and [b[n:]] for a non-negative literal [n]. *)
Definition slice_to (n : nat) (b : bytes) : bytes := firstn n b.
Definition slice_from (n : nat) (b : bytes) : bytes := skipn n b.

(** Exceptions: the class decides which [except] clause catches them, the
    text is what [str(e)] interpolates into a log line. *)
Inductive exn_class : Type :=
| zlib_error
| LZMAError
| binascii_Error
| ValueError
| NameError
| UnicodeDecodeError
| InvalidToken
| FileNotFoundError
| OSError
| OtherException (name : string).

Record exn : Type := Exn { exn_cls : exn_class; exn_str : string }.

Definition is_zlib_error (e : exn) : bool :=
  match exn_cls e with zlib_error => true | _ => false end.

Definition is_LZMAError (e : exn) : bool :=
  match exn_cls e with LZMAError => true | _ => false end.

(** Every exception of the model derives from [Exception]; [SystemExit],
    which does not, is the separate result [Exit] below. *)
Definition is_Exception (e : exn) : bool := true.

(** ** Observable events of a run *)

Inductive level : Type := INFO | ERROR.

Inductive event : Type :=
| Log (lvl : level) (line : string)   (* one line of archextract.log *)
| Stdout (line : string)              (* print(msg) *)
| Stderr (line : string)              (* print(msg, file=sys.stderr) *)
| ReadFile (path : string)            (* open(path, 'rb') and f.read() *)
| Makedirs (path : string)            (* os.makedirs(path, exist_ok=True) *)
| WriteFile (path : string) (content : bytes). (* open(path, 'wb'), f.write *)

(** ** The runtime the script runs on *)

Class Runtime : Type := {
  (** [int(s)] on a command-line string. *)
  py_int : string -> exn + Z;
  (** [b.decode()], the UTF-8 decoding of a [bytes] object. *)
  bytes_decode : bytes -> exn + string;
  (** [zlib.decompress], [lzma.decompress]. *)
  zlib_decompress : bytes -> exn + bytes;
  lzma_decompress : bytes -> exn + bytes;
  (** [base64.urlsafe_b64decode]. *)
  urlsafe_b64decode : bytes -> exn + bytes;
  (** [cryptography.fernet]: the constructor [Fernet(key)] and the method
      [f.decrypt(token)]. *)
  fernet : Type;
  Fernet : bytes -> exn + fernet;
  decrypt : fernet -> bytes -> exn + bytes;
  (** The file system: reading a whole file, [os.path.dirname],
      [os.makedirs(_, exist_ok=True)] and writing a whole file.  The last
      two return the file system they leave behind, also when they raise. *)
  FS : Type;
  read_file : FS -> string -> exn + bytes;
  dirname : string -> string;
  makedirs : FS -> string -> FS * option exn;
  write_file : FS -> string -> bytes -> FS * option exn
}.

(** ** The monad of the script *)

Inductive res (A : Type) : Type :=
| Ret (a : A)        (* normal completion *)
| Raise (e : exn)    (* an exception propagates *)
| Exit (code : Z).   (* sys.exit(code) *)

Arguments Ret {A} a.
Arguments Raise {A} e.
Arguments Exit {A} code.

Section Script.

Context {R : Runtime}.

Definition M (A : Type) : Type := FS -> res A * FS * list event.

Definition ret {A} (a : A) : M A := fun s => (Ret a, s, []).

Definition bind {A B} (m : M A) (k : A -> M B) : M B :=
  fun s =>
    match m s with
    | (Ret a, s1, t1) => let '(r, s2, t2) := k a s1 in (r, s2, (t1 ++ t2)%list)
    | (Raise e, s1, t1) => (Raise e, s1, t1)
    | (Exit c, s1, t1) => (Exit c, s1, t1)
    end.

Definition emit (ev : event) : M unit := fun s => (Ret tt, s, [ev]).

Definition raise {A} (e : exn) : M A := fun s => (Raise e, s, []).

(** [sys.exit(code)]. *)
Definition sys_exit {A} (code : Z) : M A := fun s => (Exit code, s, []).

(** The result of a runtime call that touches nothing. *)
Definition call {A} (x : exn + A) : M A :=
  match x with inr a => ret a | inl e => raise e end.

(** [try: body except <caught> as e: handler e]. *)
Definition try_except {A} (body : M A) (caught : exn -> bool)
    (handler : exn -> M A) : M A :=
  fun s =>
    match body s with
    | (Raise e, s1, t1) =>
        if caught e
        then let '(r, s2, t2) := handler e s1 in (r, s2, (t1 ++ t2)%list)
        else (Raise e, s1, t1)
    | other => other
    end.

End Script.

Declare Scope script_scope.
Delimit Scope script_scope with script.
Notation "x <- m ;; k" := (bind m (fun x => k))
  (at level 100, m at next level, right associativity) : script_scope.
Notation "m ;; k" := (bind m (fun _ => k))
  (at level 100, right associativity) : script_scope.
Local Open Scope script_scope.

Section Program.

Context {R : Runtime}.

(** ** [process_data.py], lines 12-83 *)

(** [log_message] reads the module global [verbose], which only the entry
    point binds: [None] is the unbound name. *)
Definition log_message (verbose : option Z) (msg : string) : M unit :=
  emit (Log INFO msg) ;;
  match verbose with
  | None => raise (Exn NameError "name 'verbose' is not defined")
  | Some v => if v >=? 1 then emit (Stdout msg) else ret tt
  end.

Definition log_error (msg : string) : M unit :=
  emit (Log ERROR ("ERROR: " ++ msg)) ;;
  emit (Stderr ("ERROR: " ++ msg)).

Definition validate_fernet_key (key : bytes) : bool :=
  match urlsafe_b64decode key with
  | inr decoded_key =>
      if negb (existsb (Z.eqb (len decoded_key)) [16; 24; 32])
      then false
      else true
  | inl _ => false
  end.

Definition process_none (data : bytes) (expected_size : Z) : M (option bytes) :=
  if negb (len data =? expected_size) then
    log_error "Data size mismatch for no processing" ;;
    ret None
  else ret (Some data).

Definition process_zlib (data : bytes) (expected_size : Z) : M (option bytes) :=
  try_except
    (decompressed <- call (zlib_decompress data) ;;
     if negb (len decompressed =? expected_size) then
       log_error "Zlib decompressed size mismatch" ;;
       ret None
     else ret (Some decompressed))
    is_zlib_error
    (fun e =>
       log_error ("Zlib decompression failed: " ++ exn_str e) ;;
       ret None).

Definition process_lzma (data : bytes) (expected_size : Z) : M (option bytes) :=
  try_except
    (decompressed <- call (lzma_decompress data) ;;
     if negb (len decompressed =? expected_size) then
       log_error "LZMA decompressed size mismatch" ;;
       ret None
     else ret (Some decompressed))
    is_LZMAError
    (fun e =>
       log_error ("LZMA decompression failed: " ++ exn_str e) ;;
       ret None).

Definition process_fernet (verbose : option Z) (data : bytes)
    (expected_size : Z) : M (option bytes) :=
  if len data <? 44 then
    log_error "Fernet data too short for key" ;;
    ret None
  else
    let key := slice_to 44 data in
    if negb (validate_fernet_key key) then
      log_error "Invalid Fernet key" ;;
      ret None
    else
      try_except
        (f <- call (Fernet key) ;;
         decrypted <- call (decrypt f (slice_from 44 data)) ;;
         if negb (len decrypted =? expected_size) then
           log_error "Fernet decrypted size mismatch" ;;
           ret None
         else
           key_text <- call (bytes_decode key) ;;
           log_message verbose ("Decrypted file with key: " ++ key_text) ;;
           ret (Some decrypted))
        is_Exception
        (fun e =>
           log_error ("Fernet decryption failed: " ++ exn_str e) ;;
           ret None).

(** ** The entry point, lines 85-129 *)

Definition open_read (path : string) : M bytes :=
  emit (ReadFile path) ;;
  fun s => match read_file s path with
           | inr data => (Ret data, s, [])
           | inl e => (Raise e, s, [])
           end.

Definition os_makedirs (path : string) : M unit :=
  emit (Makedirs path) ;;
  fun s => match makedirs s path with
           | (s1, None) => (Ret tt, s1, [])
           | (s1, Some e) => (Raise e, s1, [])
           end.

Definition open_write (path : string) (content : bytes) : M unit :=
  emit (WriteFile path content) ;;
  fun s => match write_file s path content with
           | (s1, None) => (Ret tt, s1, [])
           | (s1, Some e) => (Raise e, s1, [])
           end.

(** Lines 103-114: the [if]/[elif] chain over [method]. *)
Definition dispatch (verbose : option Z) (method : Z) (data : bytes)
    (expected_size : Z) : M (option bytes) :=
  if method =? 0 then process_none data expected_size
  else if method =? 1 then process_zlib data expected_size
  else if method =? 2 then process_lzma data expected_size
  else if method =? 3 then process_fernet verbose data expected_size
  else (log_error "Unknown processing method" ;; sys_exit 1).

(** Lines 116-129: what the entry point does with the result. *)
Definition finish (output_file : string) (result : option bytes) : M unit :=
  match result with
  | None => sys_exit 1
  | Some result =>
      os_makedirs (dirname output_file) ;;
      try_except
        (open_write output_file result)
        is_Exception
        (fun e =>
           log_error ("Failed to write output file " ++ output_file
                      ++ ": " ++ exn_str e) ;;
           sys_exit 1)
  end.

Definition usage : string :=
  "Usage: python3 process_data.py <method> <input_file> <output_file> <expected_size>".

(** [sys.argv[i]]; the index is in range wherever the script uses it. *)
Definition arg (argv : list string) (i : nat) : string := nth i argv EmptyString.

Definition main (argv : list string) : M unit :=
  if negb (Z.of_nat (List.length argv) =? 5) then
    emit (Stderr usage) ;;
    sys_exit 1
  else
    method <- call (py_int (arg argv 1)) ;;
    let input_file := arg argv 2 in
    let output_file := arg argv 3 in
    expected_size <- call (py_int (arg argv 4)) ;;
    let verbose := Some 1 in
    data <- open_read input_file ;;
    result <- dispatch verbose method data expected_size ;;
    finish output_file result.

End Program.

(** ** The specification's view of a run *)

(** The script has no error values: a failed transform returns [None] after
    one [log_error] call, and the entry point exits with code 1.  The
    taxonomy of the specification (section 7) names those calls;
    [failure_of_line] reads the tag off the line that was logged. *)
Inductive failure : Type :=
| InvalidMethod
| InvalidArgument
| SizeMismatch
| DecompressionError
| TruncatedInput
| InvalidKey
| DecryptionError
| OutputWriteError.

Definition size_mismatch_lines : list string :=
  [ "ERROR: Data size mismatch for no processing";
    "ERROR: Zlib decompressed size mismatch";
    "ERROR: LZMA decompressed size mismatch";
    "ERROR: Fernet decrypted size mismatch" ].

Definition failure_of_line (line : string) : option failure :=
  if (line =? "ERROR: Unknown processing method")%string then
    Some InvalidMethod
  else if existsb (String.eqb line) size_mismatch_lines then
    Some SizeMismatch
  else if prefix "ERROR: Zlib decompression failed: " line
          || prefix "ERROR: LZMA decompression failed: " line then
    Some DecompressionError
  else if (line =? "ERROR: Fernet data too short for key")%string then
    Some TruncatedInput
  else if (line =? "ERROR: Invalid Fernet key")%string then
    Some InvalidKey
  else if prefix "ERROR: Fernet decryption failed: " line then
    Some DecryptionError
  else if prefix "ERROR: Failed to write output file " line then
    Some OutputWriteError
  else None.

(** The tags of the error lines of a trace, in order. *)
Fixpoint failures (t : list event) : list failure :=
  match t with
  | [] => []
  | Log ERROR line :: t' =>
      match failure_of_line line with
      | Some f => f :: failures t'
      | None => failures t'
      end
  | _ :: t' => failures t'
  end.

(** The informational log lines of a trace, in order. *)
Fixpoint info_lines (t : list event) : list string :=
  match t with
  | [] => []
  | Log INFO line :: t' => line :: info_lines t'
  | _ :: t' => info_lines t'
  end.

(** What [log_error msg] leaves in the trace. *)
Definition error_events (msg : string) : list event :=
  [Log ERROR ("ERROR: " ++ msg); Stderr ("ERROR: " ++ msg)].

(** Events that touch the output side of the file system. *)
Definition touches_output (ev : event) : bool :=
  match ev with
  | Makedirs _ | WriteFile _ _ => true
  | _ => false
  end.

(** Events that only write to a log or a console stream. *)
Definition is_message (ev : event) : bool :=
  match ev with
  | Log _ _ | Stdout _ | Stderr _ => true
  | _ => false
  end.

Inductive outcome : Type :=
| Returned (b : bytes)            (* the transformed bytes *)
| Failed (tags : list failure)    (* no result; the failures logged *)
| Uncaught (e : exn).             (* an exception left the transform *)

Section Contract.

Context {R : Runtime}.

Definition observe (run : res (option bytes) * FS * list event) : outcome :=
  match run with
  | (Ret (Some b), _, _) => Returned b
  | (Ret None, _, t) | (Exit _, _, t) => Failed (failures t)
  | (Raise e, _, _) => Uncaught e
  end.

(** The contract [transform(method, data, expected_size)] of section 4.1:
    the dispatch of the entry point, which has bound [verbose] to 1. *)
Definition transform (method : Z) (data : bytes) (expected_size : Z)
    (s : FS) : outcome :=
  observe (dispatch (Some 1) method data expected_size s).

(** The bytes a method's transform produces before the size check, when
    it produces any. *)
Definition transformed (method : Z) (data : bytes) : option bytes :=
  if method =? 0 then Some data
  else if method =? 1 then
    match zlib_decompress data with inr d => Some d | inl _ => None end
  else if method =? 2 then
    match lzma_decompress data with inr d => Some d | inl _ => None end
  else if method =? 3 then
    if len data <? 44 then None
    else if validate_fernet_key (slice_to 44 data) then
      match Fernet (slice_to 44 data) with
      | inr f =>
          match decrypt f (slice_from 44 data) with
          | inr d => Some d
          | inl _ => None
          end
      | inl _ => None
      end
    else None
  else None.

(** What the [except Exception] clause of [process_fernet] leaves. *)
Definition decryption_failed (s : FS) (e : exn)
    : res (option bytes) * FS * list event :=
  (Ret None, s, error_events ("Fernet decryption failed: " ++ exn_str e)).

(** A run that stopped at the boundary: it did not complete, it read no
    file and logged nothing, so no transform was dispatched. *)
Definition stopped_at_boundary {A} (run : res A * FS * list event) : bool :=
  match run with
  | (Ret _, _, _) => false
  | (_, _, t) =>
      forallb (fun ev => match ev with Stderr _ => true | _ => false end) t
  end.

(** The guard on [expected_size] as the specification words it: an
    argument that is not a non-negative integer stops every invocation at
    the boundary. *)
Definition expected_size_guarded : Prop :=
  forall (argv : list string) (s : FS),
    List.length argv = 5%nat ->
    (forall n : Z, py_int (arg argv 4) = inr n -> n < 0) ->
    stopped_at_boundary (main argv s) = true.

(** Exit status of the process. *)
Definition exit_status {A} (r : res A) : Z :=
  match r with
  | Ret _ => 0
  | Raise _ => 1      (* traceback on standard error *)
  | Exit c => c
  end.

End Contract.

(** ** A concrete runtime

    An executable instance of [Runtime] on which the script can be run on
    examples.  The [int] parser, the UTF-8 check, the base64 decoder,
    [os.path.dirname] and the [Fernet] constructor follow CPython 3.11 and
    [cryptography]; the decompressors and [decrypt] know the byte streams
    of a table (each produced by the real library) and reject everything
    else; the file system is a list of files and a list of directories. *)

Module Sample.

Definition b (s : string) : bytes := list_byte_of_string s.

Definition hex_digit (c : ascii) : N :=
  let n := N_of_ascii c in
  if (n <? 58)%N then (n - 48)%N else (n - 87)%N.

(** The bytes written as lower-case hexadecimal digits. *)
Fixpoint unhex (s : string) : bytes :=
  match s with
  | String hi (String lo s') =>
      match Byte.of_N (16 * hex_digit hi + hex_digit lo) with
      | Some x => x :: unhex s'
      | None => []
      end
  | _ => []
  end.

Definition byte_val (x : byte) : Z := Z.of_N (Byte.to_N x).

(** *** [int(s)] for a string of ASCII characters: optional white space
    around an optional sign and decimal digits, single underscores allowed
    between digits. *)

Definition is_space (c : byte) : bool :=
  let n := byte_val c in
  ((9 <=? n) && (n <=? 13)) || (n =? 32).

Fixpoint lstrip (l : bytes) : bytes :=
  match l with
  | c :: l' => if is_space c then lstrip l' else l
  | [] => []
  end.

Definition strip (l : bytes) : bytes := rev (lstrip (rev (lstrip l))).

Definition is_digit (c : byte) : bool :=
  (48 <=? byte_val c) && (byte_val c <=? 57).

Fixpoint digits (after_digit : bool) (acc : Z) (l : bytes) : option Z :=
  match l with
  | [] => if after_digit then Some acc else None
  | c :: l' =>
      if is_digit c then digits true (10 * acc + (byte_val c - 48)) l'
      else if (byte_val c =? 95) && after_digit then digits false acc l'
      else None
  end.

Definition int_literal (l : bytes) : option Z :=
  match strip l with
  | c :: l' =>
      if byte_val c =? 45 then option_map Z.opp (digits false 0 l')
      else if byte_val c =? 43 then digits false 0 l'
      else digits false 0 (c :: l')
  | [] => None
  end.

Definition int (s : string) : exn + Z :=
  match int_literal (list_byte_of_string s) with
  | Some n => inr n
  | None =>
      inl (Exn ValueError
             ("invalid literal for int() with base 10: '" ++ s ++ "'"))
  end.

(** *** [bytes.decode()]: well-formed UTF-8 is kept as it is. *)

Definition cont (x : byte) : bool :=
  (128 <=? byte_val x) && (byte_val x <=? 191).

Definition within (lo hi : Z) (x : byte) : bool :=
  (lo <=? byte_val x) && (byte_val x <=? hi).

Fixpoint valid_utf8 (l : bytes) : bool :=
  match l with
  | [] => true
  | x :: l1 =>
      if byte_val x <? 128 then valid_utf8 l1
      else if within 194 223 x then
        match l1 with
        | y :: l2 => cont y && valid_utf8 l2
        | _ => false
        end
      else if within 224 239 x then
        match l1 with
        | y :: z :: l3 =>
            (if byte_val x =? 224 then within 160 191 y
             else if byte_val x =? 237 then within 128 159 y
             else cont y)
            && cont z && valid_utf8 l3
        | _ => false
        end
      else if within 240 244 x then
        match l1 with
        | y :: z :: w :: l4 =>
            (if byte_val x =? 240 then within 144 191 y
             else if byte_val x =? 244 then within 128 143 y
             else cont y)
            && cont z && cont w && valid_utf8 l4
        | _ => false
        end
      else false
  end.

Definition decode (l : bytes) : exn + string :=
  if valid_utf8 l then inr (string_of_list_byte l)
  else inl (Exn UnicodeDecodeError "'utf-8' codec can't decode bytes").

(** *** [base64.urlsafe_b64decode]: [-] and [_] are read as [+] and [/],
    then [binascii.a2b_base64] decodes without strict mode: bytes outside
    the alphabet are skipped, and a complete pad sequence ends the input. *)

Definition b64_value (c : byte) : option Z :=
  let n := byte_val c in
  if (65 <=? n) && (n <=? 90) then Some (n - 65)
  else if (97 <=? n) && (n <=? 122) then Some (n - 71)
  else if (48 <=? n) && (n <=? 57) then Some (n + 4)
  else if (n =? 43) || (n =? 45) then Some 62
  else if (n =? 47) || (n =? 95) then Some 63
  else None.

Definition out_byte (n : Z) : byte :=
  match Byte.of_N (Z.to_N (n mod 256)) with
  | Some x => x
  | None => x00
  end.

Definition Incorrect_padding : exn := Exn binascii_Error "Incorrect padding".

Definition decimal (n : Z) : string :=
  NilZero.string_of_int (Z.to_int n).

(** [produced] is the number of bytes decoded so far. *)
Definition one_extra_char (produced : Z) : exn :=
  Exn binascii_Error
    ("Invalid base64-encoded string: number of data characters ("
     ++ decimal (produced / 3 * 4 + 1)
     ++ ") cannot be 1 more than a multiple of 4").

(** [acc] is the output so far, last byte first. *)
Fixpoint a2b_base64 (l : bytes) (quad_pos : Z) (leftchar : Z) (pads : Z)
    (acc : bytes) : exn + bytes :=
  match l with
  | [] =>
      if quad_pos =? 0 then inr (rev acc)
      else if quad_pos =? 1 then inl (one_extra_char (len acc))
      else inl Incorrect_padding
  | c :: l' =>
      if byte_val c =? 61 then
        if 2 <=? quad_pos then
          if 4 <=? quad_pos + (pads + 1) then inr (rev acc)
          else a2b_base64 l' quad_pos leftchar (pads + 1) acc
        else a2b_base64 l' quad_pos leftchar pads acc
      else
        match b64_value c with
        | None => a2b_base64 l' quad_pos leftchar pads acc
        | Some v =>
            if quad_pos =? 0 then a2b_base64 l' 1 v 0 acc
            else if quad_pos =? 1 then
              a2b_base64 l' 2 (Z.land v 15) 0
                (out_byte (Z.lor (Z.shiftl leftchar 2) (Z.shiftr v 4)) :: acc)
            else if quad_pos =? 2 then
              a2b_base64 l' 3 (Z.land v 3) 0
                (out_byte (Z.lor (Z.shiftl leftchar 4) (Z.shiftr v 2)) :: acc)
            else
              a2b_base64 l' 0 0 0
                (out_byte (Z.lor (Z.shiftl leftchar 6) v) :: acc)
        end
  end.

Definition b64decode (s : bytes) : exn + bytes := a2b_base64 s 0 0 0 [].

(** *** Streams of the real libraries *)

Fixpoint bytes_eqb (x y : bytes) : bool :=
  match x, y with
  | [], [] => true
  | c :: x', d :: y' => Byte.eqb c d && bytes_eqb x' y'
  | _, _ => false
  end.

Fixpoint lookup {A} (k : bytes) (table : list (bytes * A)) : option A :=
  match table with
  | [] => None
  | (k', v) :: table' => if bytes_eqb k k' then Some v else lookup k table'
  end.

Definition swap {A B} (p : A * B) : B * A := (snd p, fst p).

(** [zlib.compress(p)] for three payloads, as (stream, payload). *)
Definition zlib_streams : list (bytes * bytes) :=
  [ (unhex "789c030000000001", []);
    (unhex "789ccbc80400013b00d2", b "hi");
    (unhex "789ccb48cdc9c95728cf2fca4901001a0b045d", b "hello world") ].

(** [lzma.compress(p)] for the same payloads. *)
Definition lzma_streams : list (bytes * bytes) :=
  [ (unhex "fd377a585a000004e6d6b446000000001cdf44211fb6f37d010000000004595a",
     []);
    (unhex "fd377a585a000004e6d6b4460200210116000000742fe5a30100016869000000fea93811bccaa54800011a02dc2ea57e1fb6f37d010000000004595a",
     b "hi");
    (unhex "fd377a585a000004e6d6b4460200210116000000742fe5a301000a68656c6c6f20776f726c640000da5223efcd7e03530001230bc21bfd091fb6f37d010000000004595a",
     b "hello world") ].

Definition zlib_inflate (data : bytes) : exn + bytes :=
  match lookup data zlib_streams with
  | Some p => inr p
  | None =>
      inl (Exn zlib_error
             "Error -3 while decompressing data: incorrect header check")
  end.

Definition lzma_decode (data : bytes) : exn + bytes :=
  match lookup data lzma_streams with
  | Some p => inr p
  | None => inl (Exn LZMAError "Input format not supported by decoder")
  end.

(** The compressors, on the payloads of the tables. *)
Definition zlib_compress (p : bytes) : bytes :=
  match lookup p (map swap zlib_streams) with Some c => c | None => [] end.

Definition lzma_compress (p : bytes) : bytes :=
  match lookup p (map swap lzma_streams) with Some c => c | None => [] end.

(** *** [cryptography.fernet] *)

Definition bad_fernet_key : exn :=
  Exn ValueError "Fernet key must be 32 url-safe base64-encoded bytes.".

(** [Fernet(key)] keeps the 32 decoded bytes of the key. *)
Definition new_fernet (key : bytes) : exn + bytes :=
  match b64decode key with
  | inr raw => if len raw =? 32 then inr raw else inl bad_fernet_key
  | inl _ => inl bad_fernet_key
  end.

(** The key and the token of the Fernet specification's test vector,
    whose plain text is [hello]. *)
Definition vector_key : bytes :=
  b "cw_0x689RpI-jtRR7oE8h_eQsKImvJapLeSbXpwF4e4=".

Definition vector_token : bytes :=
  b "gAAAAAAdwJ6wAAECAwQFBgcICQoLDA0ODy021cpGVWKZ_eEwCGM4BLLF_5CV9dOPmrhuVUPgJobwOz7JcbmrR64jVmpU4IwqDA==".

Definition vector_raw_key : bytes :=
  match b64decode vector_key with inr raw => raw | inl _ => [] end.

(** [f.decrypt(token)]: any other token is an [InvalidToken], whose text
    is empty. *)
Definition fernet_decrypt (raw_key : bytes) (token : bytes) : exn + bytes :=
  if bytes_eqb raw_key vector_raw_key && bytes_eqb token vector_token
  then inr (b "hello")
  else inl (Exn InvalidToken EmptyString).

(** *** The file system *)

Record fsys : Type := Fsys {
  files : list (string * bytes);
  dirs : list string
}.

Fixpoint find_file (path : string) (fl : list (string * bytes)) : option bytes :=
  match fl with
  | [] => None
  | (p, c) :: fl' => if (p =? path)%string then Some c else find_file path fl'
  end.

Definition no_such_file (path : string) : exn :=
  Exn FileNotFoundError
    ("[Errno 2] No such file or directory: '" ++ path ++ "'").

Definition read (s : fsys) (path : string) : exn + bytes :=
  match find_file path (files s) with
  | Some c => inr c
  | None => inl (no_such_file path)
  end.

Definition slash : ascii := "/"%char.

Fixpoint drop_while (f : ascii -> bool) (l : list ascii) : list ascii :=
  match l with
  | c :: l' => if f c then drop_while f l' else l
  | [] => []
  end.

(** [posixpath.dirname]: the path up to its last slash, without trailing
    slashes unless it consists of slashes only. *)
Definition posix_dirname (p : string) : string :=
  let rhead :=
    drop_while (fun c => negb (Ascii.eqb c slash)) (rev (list_ascii_of_string p)) in
  if forallb (Ascii.eqb slash) rhead
  then string_of_list_ascii (rev rhead)
  else string_of_list_ascii (rev (drop_while (Ascii.eqb slash) rhead)).

(** [os.makedirs(path, exist_ok=True)]: the empty path cannot be created;
    any other directory is recorded unless it is there already. *)
Definition mkdirs (s : fsys) (path : string) : fsys * option exn :=
  if (path =? EmptyString)%string then (s, Some (no_such_file path))
  else if existsb (String.eqb path) (dirs s) then (s, None)
  else (Fsys (files s) (path :: dirs s), None).

(** Writing a file needs its directory: the working directory or a
    recorded one. *)
Definition write (s : fsys) (path : string) (content : bytes)
    : fsys * option exn :=
  let d := posix_dirname path in
  if (d =? EmptyString)%string || existsb (String.eqb d) (dirs s)
  then (Fsys ((path, content) :: files s) (dirs s), None)
  else (s, Some (no_such_file path)).

#[local] Instance runtime : Runtime := {
  py_int := int;
  bytes_decode := decode;
  zlib_decompress := zlib_inflate;
  lzma_decompress := lzma_decode;
  urlsafe_b64decode := b64decode;
  fernet := bytes;
  Fernet := new_fernet;
  decrypt := fernet_decrypt;
  FS := fsys;
  read_file := read;
  dirname := posix_dirname;
  makedirs := mkdirs;
  write_file := write
}.

(** A working directory holding the inputs of the examples. *)
Definition disk : fsys :=
  Fsys [ ("hello.bin", b "hello world");
         ("hello.z", zlib_compress (b "hello world"));
         ("hello.xz", lzma_compress (b "hello world"));
         ("hello.fernet", (vector_key ++ vector_token)%list);
         ("short.fernet", b "too short") ]
       [ "out" ].

End Sample.

(** ** Further observations of a run *)

(** The lines printed on standard error, on standard output, and the
    error-level lines of the log, each in order. *)
Fixpoint stderr_lines (t : list event) : list string :=
  match t with
  | [] => []
  | Stderr line :: t' => line :: stderr_lines t'
  | _ :: t' => stderr_lines t'
  end.

Fixpoint stdout_lines (t : list event) : list string :=
  match t with
  | [] => []
  | Stdout line :: t' => line :: stdout_lines t'
  | _ :: t' => stdout_lines t'
  end.

Fixpoint error_log_lines (t : list event) : list string :=
  match t with
  | [] => []
  | Log ERROR line :: t' => line :: error_log_lines t'
  | _ :: t' => error_log_lines t'
  end.

(** The concrete runtime on a machine without memory to inflate:
    [zlib.decompress] and [lzma.decompress] raise [MemoryError], whose text
    is empty. *)
Module Exhausted.

Definition MemoryError : exn := Exn (OtherException "MemoryError") EmptyString.

#[local] Instance runtime : Runtime := {
  py_int := Sample.int;
  bytes_decode := Sample.decode;
  zlib_decompress := fun _ => inl MemoryError;
  lzma_decompress := fun _ => inl MemoryError;
  urlsafe_b64decode := Sample.b64decode;
  fernet := bytes;
  Fernet := Sample.new_fernet;
  decrypt := Sample.fernet_decrypt;
  FS := Sample.fsys;
  read_file := Sample.read;
  dirname := Sample.posix_dirname;
  makedirs := Sample.mkdirs;
  write_file := Sample.write
}.

End Exhausted.

(** The concrete runtime on a volume mounted read-only: existing
    directories are found, nothing can be created or written. *)
Module ReadOnly.

Definition permission_denied (path : string) : exn :=
  Exn (OtherException "PermissionError")
    ("[Errno 13] Permission denied: '" ++ path ++ "'").

Definition mkdirs (s : Sample.fsys) (path : string)
    : Sample.fsys * option exn :=
  if (path =? EmptyString)%string then (s, Some (Sample.no_such_file path))
  else if existsb (String.eqb path) (Sample.dirs s) then (s, None)
  else (s, Some (permission_denied path)).

Definition write (s : Sample.fsys) (path : string) (content : bytes)
    : Sample.fsys * option exn :=
  (s, Some (permission_denied path)).

#[local] Instance runtime : Runtime := {
  py_int := Sample.int;
  bytes_decode := Sample.decode;
  zlib_decompress := Sample.zlib_inflate;
  lzma_decompress := Sample.lzma_decode;
  urlsafe_b64decode := Sample.b64decode;
  fernet := bytes;
  Fernet := Sample.new_fernet;
  decrypt := Sample.fernet_decrypt;
  FS := Sample.fsys;
  read_file := Sample.read;
  dirname := Sample.posix_dirname;
  makedirs := mkdirs;
  write_file := write
}.

End ReadOnly.

(** * Properties *)

(** Closed facts about concrete inputs are settled by evaluation. *)
Ltac evaluate :=
  vm_compute; first [reflexivity | let H := fresh in intros H; discriminate H].

Arguments slice_to : simpl never.
Arguments slice_from : simpl never.
Arguments len : simpl never.

(** ** Log lines and their tags *)

Lemma mismatch_tags (msg : string) :
  In ("ERROR: " ++ msg) size_mismatch_lines ->
  failures (error_events msg) = [SizeMismatch].
Proof.
  cbv [In size_mismatch_lines].
  intros [H | [H | [H | [H | []]]]];
    unfold error_events; rewrite <- H; reflexivity.
Qed.

Lemma decryption_tags (text : string) :
  failures (error_events ("Fernet decryption failed: " ++ text))
  = [DecryptionError].
Proof. destruct text; reflexivity. Qed.

Lemma failures_app (t1 t2 : list event) :
  failures (t1 ++ t2) = (failures t1 ++ failures t2)%list.
Proof.
  induction t1 as [| ev t1 IH]; [reflexivity |].
  destruct ev as [[] line | | | | |]; simpl; auto.
  destruct (failure_of_line line); simpl; congruence.
Qed.

Lemma info_lines_app (t1 t2 : list event) :
  info_lines (t1 ++ t2) = (info_lines t1 ++ info_lines t2)%list.
Proof.
  induction t1 as [| ev t1 IH]; [reflexivity |].
  destruct ev as [[] line | | | | |]; simpl; congruence.
Qed.

Lemma len_nonneg (x : bytes) : 0 <= len x.
Proof. unfold len. lia. Qed.

(** ** Closed forms of the runs *)

Section Runs.

Context {R : Runtime}.

Lemma process_none_run (data : bytes) (n : Z) (s : FS) :
  process_none data n s =
  if len data =? n then (Ret (Some data), s, [])
  else (Ret None, s, error_events "Data size mismatch for no processing").
Proof. unfold process_none. destruct (len data =? n); reflexivity. Qed.

Lemma process_zlib_run (data : bytes) (n : Z) (s : FS) :
  process_zlib data n s =
  match zlib_decompress data with
  | inr d =>
      if len d =? n then (Ret (Some d), s, [])
      else (Ret None, s, error_events "Zlib decompressed size mismatch")
  | inl e =>
      if is_zlib_error e
      then (Ret None, s,
            error_events ("Zlib decompression failed: " ++ exn_str e))
      else (Raise e, s, [])
  end.
Proof.
  unfold process_zlib, try_except, bind, call.
  destruct (zlib_decompress data) as [e | d]; simpl.
  - destruct (is_zlib_error e); reflexivity.
  - destruct (len d =? n); reflexivity.
Qed.

Lemma process_lzma_run (data : bytes) (n : Z) (s : FS) :
  process_lzma data n s =
  match lzma_decompress data with
  | inr d =>
      if len d =? n then (Ret (Some d), s, [])
      else (Ret None, s, error_events "LZMA decompressed size mismatch")
  | inl e =>
      if is_LZMAError e
      then (Ret None, s,
            error_events ("LZMA decompression failed: " ++ exn_str e))
      else (Raise e, s, [])
  end.
Proof.
  unfold process_lzma, try_except, bind, call.
  destruct (lzma_decompress data) as [e | d]; simpl.
  - destruct (is_LZMAError e); reflexivity.
  - destruct (len d =? n); reflexivity.
Qed.

Lemma process_fernet_run (verbose : option Z) (data : bytes) (n : Z) (s : FS) :
  process_fernet verbose data n s =
  let key := slice_to 44 data in
  if len data <? 44 then
    (Ret None, s, error_events "Fernet data too short for key")
  else if validate_fernet_key key then
    match Fernet key with
    | inl e => decryption_failed s e
    | inr f =>
        match decrypt f (slice_from 44 data) with
        | inl e => decryption_failed s e
        | inr d =>
            if len d =? n then
              match bytes_decode key with
              | inl e => decryption_failed s e
              | inr key_text =>
                  let msg := "Decrypted file with key: " ++ key_text in
                  match verbose with
                  | Some v =>
                      (Ret (Some d), s,
                       Log INFO msg :: if v >=? 1 then [Stdout msg] else [])
                  | None =>
                      (Ret None, s,
                       Log INFO msg
                       :: error_events
                            "Fernet decryption failed: name 'verbose' is not defined")
                  end
              end
            else (Ret None, s, error_events "Fernet decrypted size mismatch")
        end
    end
  else (Ret None, s, error_events "Invalid Fernet key").
Proof.
  unfold process_fernet, decryption_failed.
  destruct (len data <? 44); [reflexivity |].
  cbv zeta.
  generalize (slice_to 44 data) (slice_from 44 data). intros key rest.
  destruct (validate_fernet_key key); [| reflexivity].
  unfold try_except, bind, call, ret, raise.
  destruct (Fernet key) as [e | f]; [reflexivity |]. cbv beta iota.
  destruct (decrypt f rest) as [e | d]; [reflexivity |]. cbv beta iota.
  destruct (len d =? n); [| reflexivity]. cbv beta iota.
  destruct (bytes_decode key) as [e | key_text]; [reflexivity |].
  destruct verbose as [v |]; [| reflexivity].
  unfold log_message, bind. cbv beta iota.
  destruct (v >=? 1); reflexivity.
Qed.

Lemma dispatch_unknown (verbose : option Z) (method : Z) (data : bytes)
    (n : Z) (s : FS) :
  ~ In method [0; 1; 2; 3] ->
  dispatch verbose method data n s =
  (Exit 1, s, error_events "Unknown processing method").
Proof.
  intros H. unfold dispatch.
  destruct (Z.eqb_spec method 0); [exfalso; apply H; simpl; auto |].
  destruct (Z.eqb_spec method 1); [exfalso; apply H; simpl; auto |].
  destruct (Z.eqb_spec method 2); [exfalso; apply H; simpl; auto |].
  destruct (Z.eqb_spec method 3); [exfalso; apply H; simpl; auto |].
  reflexivity.
Qed.

Lemma finish_run (output_file : string) (result : option bytes) (s : FS) :
  finish output_file result s =
  match result with
  | None => (Exit 1, s, [])
  | Some out =>
      let d := dirname output_file in
      match makedirs s d with
      | (s1, Some e) => (Raise e, s1, [Makedirs d])
      | (s1, None) =>
          match write_file s1 output_file out with
          | (s2, None) => (Ret tt, s2, [Makedirs d; WriteFile output_file out])
          | (s2, Some e) =>
              (Exit 1, s2,
               Makedirs d :: WriteFile output_file out
               :: error_events ("Failed to write output file " ++ output_file
                                ++ ": " ++ exn_str e))
          end
      end
  end.
Proof.
  destruct result as [out |]; [| reflexivity].
  unfold finish, os_makedirs, open_write, try_except, bind, emit.
  cbv beta iota zeta.
  destruct (makedirs s (dirname output_file)) as [s1 [e |]]; [reflexivity |].
  cbv beta iota.
  destruct (write_file s1 output_file out) as [s2 [e |]]; reflexivity.
Qed.

Lemma main_run (argv : list string) (s : FS) :
  List.length argv = 5%nat ->
  main argv s =
  match py_int (arg argv 1) with
  | inl e => (Raise e, s, [])
  | inr method =>
      match py_int (arg argv 4) with
      | inl e => (Raise e, s, [])
      | inr n =>
          match read_file s (arg argv 2) with
          | inl e => (Raise e, s, [ReadFile (arg argv 2)])
          | inr data =>
              match dispatch (Some 1) method data n s with
              | (Ret result, s1, t1) =>
                  let '(r, s2, t2) := finish (arg argv 3) result s1 in
                  (r, s2, ReadFile (arg argv 2) :: (t1 ++ t2)%list)
              | (Raise e, s1, t1) => (Raise e, s1, ReadFile (arg argv 2) :: t1)
              | (Exit c, s1, t1) => (Exit c, s1, ReadFile (arg argv 2) :: t1)
              end
          end
      end
  end.
Proof.
  intros Hlen. unfold main. rewrite Hlen. simpl (negb _). cbv iota.
  unfold bind at 1, call at 1.
  destruct (py_int (arg argv 1)) as [e | method]; [reflexivity |].
  unfold ret at 1. cbv beta iota zeta.
  unfold bind at 1, call at 1.
  destruct (py_int (arg argv 4)) as [e | n]; [reflexivity |].
  unfold ret at 1. cbv beta iota zeta.
  unfold bind at 1, open_read, bind at 1, emit. cbv beta iota.
  destruct (read_file s (arg argv 2)) as [e | data]; [reflexivity |].
  cbv beta iota. unfold bind at 1.
  destruct (dispatch (Some 1) method data n s) as [[[result | e | c] s1] t1];
    try reflexivity.
  destruct (finish (arg argv 3) result s1) as [[r s2] t2]. reflexivity.
Qed.

Lemma main_usage (argv : list string) (s : FS) :
  List.length argv <> 5%nat ->
  main argv s = (Exit 1, s, [Stderr usage]).
Proof.
  intros Hlen. unfold main.
  destruct (Z.eqb_spec (Z.of_nat (List.length argv)) 5); [lia | reflexivity].
Qed.

(** A transform touches no file and only emits messages; when it returns
    bytes, they are the transformed bytes, they have the expected size and
    no error line was logged. *)
Lemma dispatch_frame (verbose : option Z) (method : Z) (data : bytes)
    (n : Z) (s : FS) :
  let '(r, s1, t) := dispatch verbose method data n s in
  s1 = s
  /\ forallb is_message t = true
  /\ (forall out,
        r = Ret (Some out) ->
        In method [0; 1; 2; 3]
        /\ len out = n
        /\ transformed method data = Some out
        /\ failures t = []).
Proof.
  unfold dispatch, transformed.
  destruct (Z.eqb_spec method 0) as [-> | H0].
  { rewrite process_none_run.
    destruct (Z.eqb_spec (len data) n) as [E | E];
      (split; [reflexivity | split; [reflexivity |]]);
      intros out [= <-]. simpl; auto. }
  destruct (Z.eqb_spec method 1) as [-> | H1].
  { rewrite process_zlib_run.
    destruct (zlib_decompress data) as [e | d].
    - destruct (is_zlib_error e);
        (split; [reflexivity | split; [reflexivity |]]); intros out [=].
    - destruct (Z.eqb_spec (len d) n) as [E | E];
        (split; [reflexivity | split; [reflexivity |]]);
        intros out [= <-]. simpl; auto. }
  destruct (Z.eqb_spec method 2) as [-> | H2].
  { rewrite process_lzma_run.
    destruct (lzma_decompress data) as [e | d].
    - destruct (is_LZMAError e);
        (split; [reflexivity | split; [reflexivity |]]); intros out [=].
    - destruct (Z.eqb_spec (len d) n) as [E | E];
        (split; [reflexivity | split; [reflexivity |]]);
        intros out [= <-]. simpl; auto. }
  destruct (Z.eqb_spec method 3) as [-> | H3].
  { rewrite process_fernet_run. cbv zeta. unfold decryption_failed.
    destruct (len data <? 44);
      [split; [reflexivity | split; [reflexivity |]]; intros out [=] |].
    destruct (validate_fernet_key (slice_to 44 data));
      [| split; [reflexivity | split; [reflexivity |]]; intros out [=]].
    destruct (Fernet (slice_to 44 data)) as [e | f];
      [split; [reflexivity | split; [reflexivity |]]; intros out [=] |].
    destruct (decrypt f (slice_from 44 data)) as [e | d];
      [split; [reflexivity | split; [reflexivity |]]; intros out [=] |].
    destruct (Z.eqb_spec (len d) n) as [E | E];
      [| split; [reflexivity | split; [reflexivity |]]; intros out [=]].
    destruct (bytes_decode (slice_to 44 data)) as [e | key_text];
      [split; [reflexivity | split; [reflexivity |]]; intros out [=] |].
    destruct verbose as [v |];
      [| split; [reflexivity | split; [reflexivity |]]; intros out [=]].
    split; [reflexivity |].
    split; [destruct (v >=? 1); reflexivity |].
    intros out [= <-].
    repeat split; [simpl; auto | exact E | destruct (v >=? 1); reflexivity]. }
  split; [reflexivity | split; [reflexivity |]]. intros out [=].
Qed.

Lemma dispatch_exit (verbose : option Z) (method : Z) (data : bytes)
    (n : Z) (s s1 : FS) (c : Z) (t : list event) :
  dispatch verbose method data n s = (Exit c, s1, t) -> c = 1.
Proof.
  unfold dispatch.
  destruct (method =? 0).
  { rewrite process_none_run. destruct (len data =? n); discriminate. }
  destruct (method =? 1).
  { rewrite process_zlib_run.
    destruct (zlib_decompress data) as [e | d];
      [destruct (is_zlib_error e) | destruct (len d =? n)]; discriminate. }
  destruct (method =? 2).
  { rewrite process_lzma_run.
    destruct (lzma_decompress data) as [e | d];
      [destruct (is_LZMAError e) | destruct (len d =? n)]; discriminate. }
  destruct (method =? 3).
  { rewrite process_fernet_run. cbv zeta. unfold decryption_failed.
    destruct (len data <? 44); [discriminate |].
    destruct (validate_fernet_key (slice_to 44 data)); [| discriminate].
    destruct (Fernet (slice_to 44 data)) as [e | f]; [discriminate |].
    destruct (decrypt f (slice_from 44 data)) as [e | d]; [discriminate |].
    destruct (len d =? n); [| discriminate].
    destruct (bytes_decode (slice_to 44 data)); [discriminate |].
    destruct verbose; discriminate. }
  intros [= <- _ _]. reflexivity.
Qed.

Lemma messages_touch_nothing (t : list event) :
  forallb is_message t = true -> existsb touches_output t = false.
Proof.
  induction t as [| ev t IH]; [reflexivity |].
  simpl. destruct ev; simpl; auto; discriminate.
Qed.

Lemma messages_write_nothing (t : list event) (p : string) (c : bytes) :
  forallb is_message t = true -> ~ In (WriteFile p c) t.
Proof.
  intros H Hin. rewrite forallb_forall in H.
  specialize (H _ Hin). discriminate H.
Qed.

(** The entry point after a transform that returned no bytes: it ends
    where the transform ended, or with [sys.exit(1)]. *)
Lemma main_after_failed_transform (argv : list string) (s : FS)
    (method n : Z) (data : bytes) :
  List.length argv = 5%nat ->
  py_int (arg argv 1) = inr method ->
  py_int (arg argv 4) = inr n ->
  read_file s (arg argv 2) = inr data ->
  (forall out : bytes,
     fst (fst (dispatch (Some 1) method data n s)) <> Ret (Some out)) ->
  main argv s =
  (match fst (fst (dispatch (Some 1) method data n s)) with
   | Ret _ => Exit 1
   | Raise e => Raise e
   | Exit c => Exit c
   end, s, ReadFile (arg argv 2) :: snd (dispatch (Some 1) method data n s)).
Proof.
  intros Hlen Hmethod Hsize Hread Hfail.
  rewrite (main_run argv s Hlen), Hmethod, Hsize, Hread.
  pose proof (dispatch_frame (Some 1) method data n s) as F.
  destruct (dispatch (Some 1) method data n s) as [[r s1] t].
  destruct F as (-> & _ & _). simpl in Hfail |- *.
  destruct r as [[out |] | e | c]; try reflexivity.
  - exfalso. apply (Hfail out). reflexivity.
  - rewrite finish_run, app_nil_r. reflexivity.
Qed.

(** A transform whose bytes have another length than expected logs its
    size mismatch line and returns no result. *)
Lemma dispatch_size_mismatch (verbose : option Z) (method : Z)
    (data : bytes) (expected_size : Z) (s : FS) (out : bytes) :
  transformed method data = Some out ->
  len out <> expected_size ->
  exists msg : string,
    dispatch verbose method data expected_size s
    = (Ret None, s, error_events msg)
    /\ In ("ERROR: " ++ msg) size_mismatch_lines
    /\ observe (dispatch verbose method data expected_size s)
       = Failed [SizeMismatch].
Proof.
  intros Htr Hlen.
  assert (Hm : In method [0; 1; 2; 3]).
  { unfold transformed in Htr.
    destruct (Z.eqb_spec method 0); [simpl; auto |].
    destruct (Z.eqb_spec method 1); [simpl; auto |].
    destruct (Z.eqb_spec method 2); [simpl; auto |].
    destruct (Z.eqb_spec method 3); [simpl; auto | discriminate]. }
    assert (G : forall msg,
               In ("ERROR: " ++ msg) size_mismatch_lines ->
               dispatch verbose method data expected_size s
               = (Ret None, s, error_events msg) ->
               exists msg : string,
                 dispatch verbose method data expected_size s
                 = (Ret None, s, error_events msg)
                 /\ In ("ERROR: " ++ msg) size_mismatch_lines
                 /\ observe (dispatch verbose method data expected_size s)
                    = Failed [SizeMismatch]).
    { intros msg Hin E. exists msg. split; [exact E |]. split; [exact Hin |].
      rewrite E. unfold observe. rewrite (mismatch_tags msg Hin). reflexivity. }
    unfold transformed in Htr.
    destruct Hm as [<- | [<- | [<- | [<- | []]]]]; simpl in Htr.
    + injection Htr as <-.
      apply (G "Data size mismatch for no processing"); [simpl; auto |].
      change (dispatch verbose 0 data expected_size s)
        with (process_none data expected_size s).
      rewrite process_none_run.
      destruct (Z.eqb_spec (len data) expected_size);
        [contradiction | reflexivity].
    + destruct (zlib_decompress data) as [e | d] eqn:Hd; [discriminate |].
      injection Htr as <-.
      apply (G "Zlib decompressed size mismatch"); [simpl; auto |].
      change (dispatch verbose 1 data expected_size s)
        with (process_zlib data expected_size s).
      rewrite process_zlib_run, Hd.
      destruct (Z.eqb_spec (len d) expected_size);
        [contradiction | reflexivity].
    + destruct (lzma_decompress data) as [e | d] eqn:Hd; [discriminate |].
      injection Htr as <-.
      apply (G "LZMA decompressed size mismatch"); [simpl; auto 6 |].
      change (dispatch verbose 2 data expected_size s)
        with (process_lzma data expected_size s).
      rewrite process_lzma_run, Hd.
      destruct (Z.eqb_spec (len d) expected_size);
        [contradiction | reflexivity].
    + apply (G "Fernet decrypted size mismatch"); [simpl; auto 6 |].
      change (dispatch verbose 3 data expected_size s)
        with (process_fernet verbose data expected_size s).
      rewrite process_fernet_run. cbv zeta.
      destruct (len data <? 44); [discriminate |].
      destruct (validate_fernet_key (slice_to 44 data)); [| discriminate].
      destruct (Fernet (slice_to 44 data)) as [e | f]; [discriminate |].
      destruct (decrypt f (slice_from 44 data)) as [e | d]; [discriminate |].
      injection Htr as <-.
      destruct (Z.eqb_spec (len d) expected_size);
        [contradiction | reflexivity].
Qed.

(** The entry point adds no informational line to those of the
    transform. *)
Lemma main_info_lines (argv : list string) (s : FS) (method n : Z)
    (data : bytes) :
  List.length argv = 5%nat ->
  py_int (arg argv 1) = inr method ->
  py_int (arg argv 4) = inr n ->
  read_file s (arg argv 2) = inr data ->
  info_lines (snd (main argv s))
  = info_lines (snd (dispatch (Some 1) method data n s)).
Proof.
  intros Hlen Hmethod Hsize Hread.
  rewrite (main_run argv s Hlen), Hmethod, Hsize, Hread.
  destruct (dispatch (Some 1) method data n s) as [[[result | e | c] s1] t];
    try reflexivity.
  rewrite finish_run. destruct result as [out |];
    [| simpl; rewrite app_nil_r; reflexivity].
  cbv zeta.
  destruct (makedirs s1 (dirname (arg argv 3))) as [s2 [e |]];
    try destruct (write_file s2 (arg argv 3) out) as [s3 [e |]];
    simpl; rewrite info_lines_app; simpl; apply app_nil_r.
Qed.

End Runs.

(** ** The claims of the specification *)

(** C1 (size oracle).  For each of the four methods, bytes returned by
    the transform are the transformed bytes and their length is the
    expected size; and whenever the method's transform produces bytes of
    another length, the run returns no result after logging that method's
    size mismatch line, which is the failure [SizeMismatch]. *)
Theorem size_oracle {R : Runtime} (verbose : option Z) (method : Z)
    (data : bytes) (expected_size : Z) (s : FS) :
  In method [0; 1; 2; 3] ->
  (forall out : bytes,
     fst (fst (dispatch verbose method data expected_size s))
     = Ret (Some out) ->
     len out = expected_size /\ transformed method data = Some out)
  /\ (forall out : bytes,
        transformed method data = Some out ->
        len out <> expected_size ->
        exists msg : string,
          dispatch verbose method data expected_size s
          = (Ret None, s, error_events msg)
          /\ In ("ERROR: " ++ msg) size_mismatch_lines
          /\ observe (dispatch verbose method data expected_size s)
             = Failed [SizeMismatch]).
Proof.
  intros Hm. split.
  - intros out Hout.
    pose proof (dispatch_frame verbose method data expected_size s) as F.
    destruct (dispatch verbose method data expected_size s) as [[r s1] t].
    simpl in Hout. destruct F as (_ & _ & F).
    destruct (F out Hout) as (_ & Hlen & Htr & _). auto.
  - intros out Htr Hlen.
    exact (dispatch_size_mismatch verbose method data expected_size s out
             Htr Hlen).
Qed.

(** The Fernet test vector decrypts to the five bytes of [hello]; the
    zlib stream of [hello world] inflates to eleven bytes, which an
    expected size of 5 refuses. *)
Lemma size_oracle_witness :
  (In 3 [0; 1; 2; 3]
   /\ fst (fst (dispatch (R := Sample.runtime) (Some 1) 3
                  (Sample.vector_key ++ Sample.vector_token)%list 5
                  Sample.disk))
      = Ret (Some (Sample.b "hello"))
   /\ len (Sample.b "hello") = 5)
  /\ (In 1 [0; 1; 2; 3]
      /\ transformed (R := Sample.runtime) 1
           (Sample.zlib_compress (Sample.b "hello world"))
         = Some (Sample.b "hello world")
      /\ len (Sample.b "hello world") <> 5
      /\ observe (dispatch (R := Sample.runtime) (Some 1) 1
                    (Sample.zlib_compress (Sample.b "hello world")) 5
                    Sample.disk)
         = Failed [SizeMismatch]).
Proof.
  split.
  - assert (Hm : In 3 [0; 1; 2; 3]) by (simpl; auto).
    split; [exact Hm |]. split; [reflexivity |].
    apply (proj1 (size_oracle (R := Sample.runtime) (Some 1) 3
                    (Sample.vector_key ++ Sample.vector_token)%list 5
                    Sample.disk Hm) (Sample.b "hello")).
    reflexivity.
  - assert (Hm : In 1 [0; 1; 2; 3]) by (simpl; auto).
    assert (Hlen : len (Sample.b "hello world") <> 5)
      by (vm_compute; discriminate).
    split; [exact Hm |]. split; [reflexivity |]. split; [exact Hlen |].
    destruct (proj2 (size_oracle (R := Sample.runtime) (Some 1) 1
                       (Sample.zlib_compress (Sample.b "hello world")) 5
                       Sample.disk Hm)
                (Sample.b "hello world") eq_refl Hlen)
      as (msg & _ & _ & H).
    exact H.
Defined.

(** C2 (order of the SYMMETRIC failures).  An input shorter than 44 bytes
    is [TruncatedInput] whatever the key functions do; otherwise a key
    prefix that fails validation is [InvalidKey], whatever the cipher
    would do with it (the run is the two lines of [log_error] in every
    runtime: nothing of the cipher is observed); otherwise a failing
    decrypt call on the remaining bytes is [DecryptionError], with the
    text of the exception in the line; otherwise a decrypted length other
    than the expected size is [SizeMismatch].  (A validated key that the
    [Fernet] constructor refuses ends in the same [except] clause as a
    failing decrypt call.) *)
Theorem fernet_failure_order {R : Runtime} (verbose : option Z)
    (data : bytes) (expected_size : Z) (s : FS) :
  (len data < 44 ->
   process_fernet verbose data expected_size s
   = (Ret None, s, error_events "Fernet data too short for key")
   /\ observe (process_fernet verbose data expected_size s)
      = Failed [TruncatedInput])
  /\ (44 <= len data ->
      validate_fernet_key (slice_to 44 data) = false ->
      process_fernet verbose data expected_size s
      = (Ret None, s, error_events "Invalid Fernet key")
      /\ observe (process_fernet verbose data expected_size s)
         = Failed [InvalidKey])
  /\ (44 <= len data ->
      validate_fernet_key (slice_to 44 data) = true ->
      forall (f : fernet) (e : exn),
        Fernet (slice_to 44 data) = inr f ->
        decrypt f (slice_from 44 data) = inl e ->
        process_fernet verbose data expected_size s
        = (Ret None, s,
           error_events ("Fernet decryption failed: " ++ exn_str e))
        /\ observe (process_fernet verbose data expected_size s)
           = Failed [DecryptionError])
  /\ (44 <= len data ->
      validate_fernet_key (slice_to 44 data) = true ->
      forall (f : fernet) (decrypted : bytes),
        Fernet (slice_to 44 data) = inr f ->
        decrypt f (slice_from 44 data) = inr decrypted ->
        len decrypted <> expected_size ->
        process_fernet verbose data expected_size s
        = (Ret None, s, error_events "Fernet decrypted size mismatch")
        /\ observe (process_fernet verbose data expected_size s)
           = Failed [SizeMismatch])
  /\ (44 <= len data ->
      validate_fernet_key (slice_to 44 data) = true ->
      forall e : exn,
        Fernet (slice_to 44 data) = inl e ->
        observe (process_fernet verbose data expected_size s)
        = Failed [DecryptionError]).
Proof.
  rewrite process_fernet_run. cbv zeta.
  split; [| split; [| split; [| split]]].
  - intros H. destruct (Z.ltb_spec (len data) 44); [| lia].
    split; reflexivity.
  - intros H Hkey. destruct (Z.ltb_spec (len data) 44); [lia |].
    rewrite Hkey. split; reflexivity.
  - intros H Hkey f e Hf He. destruct (Z.ltb_spec (len data) 44); [lia |].
    rewrite Hkey, Hf, He. unfold decryption_failed.
    split; [reflexivity |].
    unfold observe. rewrite decryption_tags. reflexivity.
  - intros H Hkey f decrypted Hf Hd Hlen.
    destruct (Z.ltb_spec (len data) 44); [lia |].
    rewrite Hkey, Hf, Hd.
    destruct (Z.eqb_spec (len decrypted) expected_size); [contradiction |].
    split; reflexivity.
  - intros H Hkey e Hf. destruct (Z.ltb_spec (len data) 44); [lia |].
    rewrite Hkey, Hf. unfold decryption_failed, observe.
    rewrite decryption_tags. reflexivity.
Qed.

(** Nine bytes; 44 letters (a 33-byte key) before a token; the vector's
    key before a token that is not one; the vector with expected size 6;
    a 24-byte key, which the validation accepts and [Fernet] refuses. *)
Lemma fernet_failure_order_witness :
  observe (process_fernet (R := Sample.runtime) (Some 1)
             (Sample.b "too short") 5 Sample.disk)
  = Failed [TruncatedInput]
  /\ observe (process_fernet (R := Sample.runtime) (Some 1)
                (Sample.b "AAAAAAAAAAAAAAAAAAAAAAAAAAAAAAAAAAAAAAAAAAAA"
                 ++ Sample.vector_token)%list 5 Sample.disk)
     = Failed [InvalidKey]
  /\ observe (process_fernet (R := Sample.runtime) (Some 1)
                (Sample.vector_key ++ Sample.b "not a token")%list 5
                Sample.disk)
     = Failed [DecryptionError]
  /\ observe (process_fernet (R := Sample.runtime) (Some 1)
                (Sample.vector_key ++ Sample.vector_token)%list 6
                Sample.disk)
     = Failed [SizeMismatch]
  /\ observe (process_fernet (R := Sample.runtime) (Some 1)
                (Sample.b "AAAAAAAAAAAAAAAAAAAAAAAAAAAAAAAA!!!!!!!!!!!!"
                 ++ Sample.vector_token)%list 5 Sample.disk)
     = Failed [DecryptionError].
Proof.
  split; [| split; [| split; [| split]]].
  - apply (proj1 (fernet_failure_order (R := Sample.runtime) (Some 1)
                    (Sample.b "too short") 5 Sample.disk)).
    reflexivity.
  - apply (proj1 (proj2 (fernet_failure_order (R := Sample.runtime) (Some 1)
                           (Sample.b "AAAAAAAAAAAAAAAAAAAAAAAAAAAAAAAAAAAAAAAAAAAA"
                            ++ Sample.vector_token)%list 5 Sample.disk)));
      evaluate.
  - apply (proj1 (proj2 (proj2 (fernet_failure_order (R := Sample.runtime)
                                  (Some 1)
                                  (Sample.vector_key
                                   ++ Sample.b "not a token")%list
                                  5 Sample.disk)))
             ltac:(evaluate) ltac:(evaluate)
             Sample.vector_raw_key (Exn InvalidToken EmptyString));
      evaluate.
  - apply (proj1 (proj2 (proj2 (proj2 (fernet_failure_order
                                         (R := Sample.runtime)
                                         (Some 1)
                                         (Sample.vector_key
                                          ++ Sample.vector_token)%list
                                         6 Sample.disk))))
             ltac:(evaluate) ltac:(evaluate)
             Sample.vector_raw_key (Sample.b "hello"));
      evaluate.
  - apply (proj2 (proj2 (proj2 (proj2 (fernet_failure_order
                                         (R := Sample.runtime)
                                         (Some 1)
                                         (Sample.b "AAAAAAAAAAAAAAAAAAAAAAAAAAAAAAAA!!!!!!!!!!!!"
                                          ++ Sample.vector_token)%list
                                         5 Sample.disk))))
             ltac:(evaluate) ltac:(evaluate) Sample.bad_fernet_key).
    evaluate.
Defined.

(** C3 (identity law).  For method NONE the transform returns the data
    unchanged when the expected size is its length, logging nothing, and
    for every other expected size it returns no result after logging the
    size mismatch: [transform(NONE, data, n)] is [SizeMismatch]. *)
Theorem none_identity_law {R : Runtime} (data : bytes) (s : FS) :
  (process_none data (len data) s = (Ret (Some data), s, [])
   /\ transform 0 data (len data) s = Returned data)
  /\ (forall n : Z,
        n <> len data ->
        process_none data n s
        = (Ret None, s, error_events "Data size mismatch for no processing")
        /\ transform 0 data n s = Failed [SizeMismatch]).
Proof.
  split.
  - assert (E : process_none data (len data) s = (Ret (Some data), s, [])).
    { rewrite process_none_run, Z.eqb_refl. reflexivity. }
    split; [exact E |].
    unfold transform, dispatch. simpl (0 =? 0). cbv iota.
    rewrite E. reflexivity.
  - intros n Hn.
    assert (E : process_none data n s
                = (Ret None, s,
                   error_events "Data size mismatch for no processing")).
    { rewrite process_none_run.
      destruct (Z.eqb_spec (len data) n); [congruence | reflexivity]. }
    split; [exact E |].
    unfold transform, dispatch. simpl (0 =? 0). cbv iota.
    rewrite E. reflexivity.
Qed.

(** The scenario of the specification: [hello world] with expected size
    5 is a size mismatch. *)
Lemma none_identity_law_witness :
  5 <> len (Sample.b "hello world")
  /\ transform (R := Sample.runtime) 0 (Sample.b "hello world") 5 Sample.disk
     = Failed [SizeMismatch].
Proof.
  split.
  - vm_compute. discriminate.
  - apply (proj2 (none_identity_law (R := Sample.runtime)
                    (Sample.b "hello world") Sample.disk)).
    vm_compute. discriminate.
Defined.

(** C4 (round trip).  Whenever the zlib decompressor undoes what a
    compressor made of a payload [p], the ZLIB transform of the compressed
    payload with expected size [len p] returns [p] and logs nothing; the
    same holds for LZMA with its compressor. *)
Theorem round_trip_law {R : Runtime} (p : bytes) (s : FS) :
  (forall compress : bytes -> bytes,
     zlib_decompress (compress p) = inr p ->
     process_zlib (compress p) (len p) s = (Ret (Some p), s, [])
     /\ transform 1 (compress p) (len p) s = Returned p)
  /\ (forall compress : bytes -> bytes,
        lzma_decompress (compress p) = inr p ->
        process_lzma (compress p) (len p) s = (Ret (Some p), s, [])
        /\ transform 2 (compress p) (len p) s = Returned p).
Proof.
  split; intros compress H.
  - assert (E : process_zlib (compress p) (len p) s = (Ret (Some p), s, [])).
    { rewrite process_zlib_run, H, Z.eqb_refl. reflexivity. }
    split; [exact E |].
    unfold transform, dispatch. simpl (1 =? 0). simpl (1 =? 1). cbv iota.
    rewrite E. reflexivity.
  - assert (E : process_lzma (compress p) (len p) s = (Ret (Some p), s, [])).
    { rewrite process_lzma_run, H, Z.eqb_refl. reflexivity. }
    split; [exact E |].
    unfold transform, dispatch.
    simpl (2 =? 0). simpl (2 =? 1). simpl (2 =? 2). cbv iota.
    rewrite E. reflexivity.
Qed.

(** The streams that [zlib.compress] and [lzma.compress] produce for
    [hello world] go back to it. *)
Lemma round_trip_law_witness :
  (zlib_decompress (Runtime := Sample.runtime)
     (Sample.zlib_compress (Sample.b "hello world"))
   = inr (Sample.b "hello world")
   /\ transform (R := Sample.runtime) 1
        (Sample.zlib_compress (Sample.b "hello world")) 11 Sample.disk
      = Returned (Sample.b "hello world"))
  /\ (lzma_decompress (Runtime := Sample.runtime)
        (Sample.lzma_compress (Sample.b "hello world"))
      = inr (Sample.b "hello world")
      /\ transform (R := Sample.runtime) 2
           (Sample.lzma_compress (Sample.b "hello world")) 11 Sample.disk
         = Returned (Sample.b "hello world")).
Proof.
  split.
  - split; [reflexivity |].
    apply (proj1 (round_trip_law (R := Sample.runtime)
                    (Sample.b "hello world") Sample.disk)
             Sample.zlib_compress).
    reflexivity.
  - split; [reflexivity |].
    apply (proj2 (round_trip_law (R := Sample.runtime)
                    (Sample.b "hello world") Sample.disk)
             Sample.lzma_compress).
    reflexivity.
Defined.

(** C5, as stated, fails: [int('-5')] is [-5], the input is read and the
    NONE transform is dispatched; the invocation ends with the size
    mismatch of that transform, not at the boundary. *)
Lemma negative_expected_size_is_dispatched :
  py_int (Runtime := Sample.runtime) "-5" = inr (-5)
  /\ main (R := Sample.runtime)
       ["process_data.py"; "0"; "hello.bin"; "out/hello"; "-5"] Sample.disk
     = (Exit 1, Sample.disk,
        ReadFile "hello.bin"
        :: error_events "Data size mismatch for no processing")
  /\ ~ expected_size_guarded (R := Sample.runtime).
Proof.
  split; [reflexivity |]. split; [reflexivity |].
  intros H.
  specialize (H ["process_data.py"; "0"; "hello.bin"; "out/hello"; "-5"]
                Sample.disk eq_refl).
  assert (G : stopped_at_boundary
                (main (R := Sample.runtime)
                   ["process_data.py"; "0"; "hello.bin"; "out/hello"; "-5"]
                   Sample.disk) = false) by reflexivity.
  rewrite H in G; [discriminate G |].
  intros n [= <-]. reflexivity.
Qed.

(** C5, amended.  [expected_size] is what [int] makes of the argument and
    is not checked for its sign.  When [int] rejects the argument, the
    exception of the first failing conversion ends the program before it
    reads the input: no file is touched, nothing is logged, no transform
    is dispatched.  A negative integer is accepted: once the method is
    parsed and the input read, the transform is dispatched with it; every
    transform that produces bytes then fails with [SizeMismatch], and the
    invocation never completes normally and never touches the output. *)
Theorem expected_size_parsed_not_checked {R : Runtime}
    (argv : list string) (s : FS) :
  List.length argv = 5%nat ->
  (forall e : exn,
     py_int (arg argv 4) = inl e ->
     stopped_at_boundary (main argv s) = true
     /\ exists e' : exn,
          main argv s = (Raise e', s, [])
          /\ (e' = e \/ py_int (arg argv 1) = inl e'))
  /\ (forall n : Z,
        py_int (arg argv 4) = inr n ->
        n < 0 ->
        (forall a : unit, fst (fst (main argv s)) <> Ret a)
        /\ snd (fst (main argv s)) = s
        /\ existsb touches_output (snd (main argv s)) = false
        /\ forall (method : Z) (data : bytes),
             py_int (arg argv 1) = inr method ->
             read_file s (arg argv 2) = inr data ->
             snd (main argv s)
             = ReadFile (arg argv 2)
               :: snd (dispatch (Some 1) method data n s)
             /\ forall out : bytes,
                  transformed method data = Some out ->
                  observe (dispatch (Some 1) method data n s)
                  = Failed [SizeMismatch]).
Proof.
  intros Hlen. split.
  - intros e He. rewrite (main_run argv s Hlen), He.
    destruct (py_int (arg argv 1)) as [e1 | method].
    + split; [reflexivity |]. exists e1. auto.
    + split; [reflexivity |]. exists e. auto.
  - intros n Hn Hneg.
    assert (Hfail : forall method data out,
              fst (fst (dispatch (Some 1) method data n s))
              <> Ret (Some out)).
    { intros method data out Hout.
      pose proof (dispatch_frame (Some 1) method data n s) as F.
      destruct (dispatch (Some 1) method data n s) as [[r s1] t].
      destruct F as (_ & _ & F). destruct (F out Hout) as (_ & Hl & _).
      pose proof (len_nonneg out). lia. }
    destruct (py_int (arg argv 1)) as [e1 | method] eqn:Hmethod.
    { rewrite (main_run argv s Hlen), Hmethod.
      repeat split; try discriminate; try (intros ? ? [=]). }
    destruct (read_file s (arg argv 2)) as [e2 | data] eqn:Hread.
    { rewrite (main_run argv s Hlen), Hmethod, Hn, Hread.
      repeat split; try discriminate; try (intros ? ? [=]). }
    rewrite (main_after_failed_transform argv s method n data
               Hlen Hmethod Hn Hread (Hfail method data)).
    pose proof (dispatch_frame (Some 1) method data n s) as F.
    destruct (dispatch (Some 1) method data n s) as [[r s1] t] eqn:D.
    destruct F as (_ & Hmsg & _). simpl.
    split; [destruct r; discriminate |].
    split; [reflexivity |].
    split; [apply messages_touch_nothing; exact Hmsg |].
    intros method' data' [= <-] [= <-]. rewrite D.
    split; [reflexivity |].
    intros out Htr.
    destruct (dispatch_size_mismatch (Some 1) method data n s out Htr)
      as (msg & _ & _ & Hobs).
    { pose proof (len_nonneg out). lia. }
    rewrite D in Hobs. exact Hobs.
Qed.

(** [abc] is rejected by [int] and ends the program at once; [-5] is
    accepted and the NONE transform fails with [SizeMismatch]. *)
Lemma expected_size_parsed_not_checked_witness :
  (py_int (Runtime := Sample.runtime) "abc"
   = inl (Exn ValueError "invalid literal for int() with base 10: 'abc'")
   /\ stopped_at_boundary
        (main (R := Sample.runtime)
           ["process_data.py"; "0"; "hello.bin"; "out/hello"; "abc"]
           Sample.disk)
      = true)
  /\ (py_int (Runtime := Sample.runtime) "-5" = inr (-5)
      /\ observe (dispatch (R := Sample.runtime) (Some 1) 0
                    (Sample.b "hello world") (-5) Sample.disk)
         = Failed [SizeMismatch]).
Proof.
  split; (split; [reflexivity |]).
  - apply (proj1 (expected_size_parsed_not_checked (R := Sample.runtime)
                    ["process_data.py"; "0"; "hello.bin"; "out/hello"; "abc"]
                    Sample.disk eq_refl)
             (Exn ValueError "invalid literal for int() with base 10: 'abc'")
             eq_refl).
  - destruct (proj2 (expected_size_parsed_not_checked (R := Sample.runtime)
                       ["process_data.py"; "0"; "hello.bin"; "out/hello";
                        "-5"] Sample.disk eq_refl)
                (-5) eq_refl eq_refl)
      as (_ & _ & _ & H).
    destruct (H 0 (Sample.b "hello world") eq_refl eq_refl) as (_ & G).
    exact (G (Sample.b "hello world") eq_refl).
Defined.

(** C6 (key validation).  [validate_fernet_key] accepts a key exactly
    when [urlsafe_b64decode] returns a value of 16, 24 or 32 bytes: it is
    true for every such key, of 44 bytes or not, and false when the
    decoded value has any other length and when the decoding raises. *)
Theorem validate_fernet_key_spec {R : Runtime} (key : bytes) :
  (forall decoded : bytes,
     urlsafe_b64decode key = inr decoded ->
     len decoded = 16 \/ len decoded = 24 \/ len decoded = 32 ->
     validate_fernet_key key = true)
  /\ (forall decoded : bytes,
        urlsafe_b64decode key = inr decoded ->
        len decoded <> 16 -> len decoded <> 24 -> len decoded <> 32 ->
        validate_fernet_key key = false)
  /\ (forall e : exn,
        urlsafe_b64decode key = inl e -> validate_fernet_key key = false).
Proof.
  unfold validate_fernet_key.
  repeat split.
  - intros decoded -> H. simpl.
    destruct H as [-> | [-> | ->]]; reflexivity.
  - intros decoded -> H16 H24 H32. simpl.
    destruct (Z.eqb_spec (len decoded) 16); [contradiction |].
    destruct (Z.eqb_spec (len decoded) 24); [contradiction |].
    destruct (Z.eqb_spec (len decoded) 32); [contradiction |].
    reflexivity.
  - intros e ->. reflexivity.
Qed.

(** The key of the Fernet test vector has 44 bytes, decodes to 32 and is
    accepted; 44 letters decode to 33 bytes and are refused; 43 letters
    and a byte outside the alphabet do not decode and are refused. *)
Lemma validate_fernet_key_spec_witness :
  (len Sample.vector_key = 44
   /\ urlsafe_b64decode (Runtime := Sample.runtime) Sample.vector_key
      = inr Sample.vector_raw_key
   /\ len Sample.vector_raw_key = 32
   /\ validate_fernet_key (R := Sample.runtime) Sample.vector_key = true)
  /\ (urlsafe_b64decode (Runtime := Sample.runtime)
        (Sample.b "AAAAAAAAAAAAAAAAAAAAAAAAAAAAAAAAAAAAAAAAAAAA")
      = inr (repeat x00 33)
      /\ validate_fernet_key (R := Sample.runtime)
           (Sample.b "AAAAAAAAAAAAAAAAAAAAAAAAAAAAAAAAAAAAAAAAAAAA") = false)
  /\ (urlsafe_b64decode (Runtime := Sample.runtime)
        (Sample.b "AAAAAAAAAAAAAAAAAAAAAAAAAAAAAAAAAAAAAAAAAAA!")
      = inl Sample.Incorrect_padding
      /\ validate_fernet_key (R := Sample.runtime)
           (Sample.b "AAAAAAAAAAAAAAAAAAAAAAAAAAAAAAAAAAAAAAAAAAA!") = false).
Proof.
  split; [| split].
  - split; [reflexivity |].
    split; [reflexivity |].
    split; [reflexivity |].
    apply (proj1 (validate_fernet_key_spec (R := Sample.runtime)
                    Sample.vector_key) Sample.vector_raw_key).
    + reflexivity.
    + right. right. reflexivity.
  - split; [reflexivity |].
    apply (proj1 (proj2 (validate_fernet_key_spec (R := Sample.runtime) _))
             (repeat x00 33)).
    + reflexivity.
    + vm_compute. discriminate.
    + vm_compute. discriminate.
    + vm_compute. discriminate.
  - split; [reflexivity |].
    apply (proj2 (proj2 (validate_fernet_key_spec (R := Sample.runtime) _))
             Sample.Incorrect_padding).
    reflexivity.
Defined.

(** C7 (invalid method).  For a method outside 0..3 the dispatch calls no
    transform: whatever the data, the expected size and the runtime, it
    logs [Unknown processing method] and exits with code 1, which is the
    failure [InvalidMethod]; an invocation that reaches the dispatch (both
    integers parsed, input read) ends the same way, its file system
    untouched.  In particular [transform(99, b'', 0)] is [InvalidMethod]. *)
Theorem unknown_method {R : Runtime} :
  (forall method : Z,
     ~ In method [0; 1; 2; 3] ->
     (forall (verbose : option Z) (data : bytes) (n : Z) (s : FS),
        dispatch verbose method data n s
        = (Exit 1, s, error_events "Unknown processing method")
        /\ transform method data n s = Failed [InvalidMethod])
     /\ (forall (argv : list string) (data : bytes) (n : Z) (s : FS),
           List.length argv = 5%nat ->
           py_int (arg argv 1) = inr method ->
           py_int (arg argv 4) = inr n ->
           read_file s (arg argv 2) = inr data ->
           main argv s
           = (Exit 1, s,
              ReadFile (arg argv 2)
              :: error_events "Unknown processing method")
           /\ exit_status (fst (fst (main argv s))) = 1))
  /\ (forall s : FS, transform 99 [] 0 s = Failed [InvalidMethod]).
Proof.
  split.
  - intros method Hm. split.
    + intros verbose data n s.
      assert (E := dispatch_unknown verbose method data n s Hm).
      split; [exact E |].
      unfold transform. rewrite (dispatch_unknown _ _ _ _ _ Hm). reflexivity.
    + intros argv data n s Hlen Hmethod Hsize Hread.
      assert (E : main argv s
                  = (Exit 1, s,
                     ReadFile (arg argv 2)
                     :: error_events "Unknown processing method")).
      { rewrite (main_run argv s Hlen), Hmethod, Hsize, Hread.
        rewrite (dispatch_unknown _ _ _ _ _ Hm). reflexivity. }
      rewrite E. split; reflexivity.
  - intros s. reflexivity.
Qed.

(** The file [hello.z] with method 99. *)
Lemma unknown_method_witness :
  ~ In 99 [0; 1; 2; 3]
  /\ main (R := Sample.runtime)
       ["process_data.py"; "99"; "hello.z"; "out/hello"; "11"] Sample.disk
     = (Exit 1, Sample.disk,
        ReadFile "hello.z" :: error_events "Unknown processing method").
Proof.
  assert (H : ~ In 99 [0; 1; 2; 3]).
  { simpl. intros [H | [H | [H | [H | []]]]]; discriminate H. }
  split; [exact H |].
  apply (proj2 (proj1 (unknown_method (R := Sample.runtime)) 99 H)
           ["process_data.py"; "99"; "hello.z"; "out/hello"; "11"]
           (Sample.zlib_compress (Sample.b "hello world")) 11 Sample.disk);
    reflexivity.
Defined.

(** C8 (no partial output).  In an invocation whose transform returns no
    bytes -- a logged failure of any method, an unknown method, or an
    exception that leaves the transform -- the entry point calls neither
    [os.makedirs] nor [open(output_file, 'wb')], leaves the file system as
    it found it and exits with status 1.  Conversely, in every invocation
    whatsoever that touches the output side, the transform has returned
    bytes of the expected size before, and only those bytes are written,
    to the output path; and an invocation that does not touch the output
    side leaves the file system unchanged.  (The log file is the stream of
    [Log] events of the model, not a file of [FS].) *)
Theorem failed_transform_writes_nothing {R : Runtime}
    (argv : list string) (s : FS) :
  (forall (method n : Z) (data : bytes),
     List.length argv = 5%nat ->
     py_int (arg argv 1) = inr method ->
     py_int (arg argv 4) = inr n ->
     read_file s (arg argv 2) = inr data ->
     (forall out : bytes,
        fst (fst (dispatch (Some 1) method data n s)) <> Ret (Some out)) ->
     snd (fst (main argv s)) = s
     /\ existsb touches_output (snd (main argv s)) = false
     /\ exit_status (fst (fst (main argv s))) = 1)
  /\ (existsb touches_output (snd (main argv s)) = true ->
      exists (method n : Z) (data out : bytes),
        py_int (arg argv 1) = inr method
        /\ py_int (arg argv 4) = inr n
        /\ read_file s (arg argv 2) = inr data
        /\ fst (fst (dispatch (Some 1) method data n s)) = Ret (Some out)
        /\ len out = n
        /\ forall (p : string) (c : bytes),
             In (WriteFile p c) (snd (main argv s)) ->
             p = arg argv 3 /\ c = out)
  /\ (existsb touches_output (snd (main argv s)) = false ->
      snd (fst (main argv s)) = s).
Proof.
  split; [| split].
  - intros method n data Hlen Hmethod Hsize Hread Hfail.
    rewrite (main_after_failed_transform argv s method n data
               Hlen Hmethod Hsize Hread Hfail).
    pose proof (dispatch_frame (Some 1) method data n s) as F.
    pose proof (dispatch_exit (Some 1) method data n s) as X.
    destruct (dispatch (Some 1) method data n s) as [[r s1] t].
    destruct F as (_ & Hmsg & _). simpl.
    split; [reflexivity |].
    split; [apply messages_touch_nothing; exact Hmsg |].
    destruct r as [result | e | c]; try reflexivity.
    simpl. apply (X s1 c t). reflexivity.
  - destruct (Nat.eq_dec (List.length argv) 5) as [Hlen | Hlen];
      [| rewrite (main_usage argv s Hlen); discriminate].
    rewrite (main_run argv s Hlen).
    destruct (py_int (arg argv 1)) as [e | method]; [discriminate |].
    destruct (py_int (arg argv 4)) as [e | n]; [discriminate |].
    destruct (read_file s (arg argv 2)) as [e | data]; [discriminate |].
    pose proof (dispatch_frame (Some 1) method data n s) as F.
    destruct (dispatch (Some 1) method data n s) as [[r s1] t] eqn:D.
    destruct F as (-> & Hmsg & Hout).
    pose proof (messages_touch_nothing t Hmsg) as Ht.
    destruct r as [[out |] | e | c].
    + intros _. exists method, n, data, out.
      destruct (Hout out eq_refl) as (_ & Hn & _ & _).
      do 3 (split; [reflexivity |]).
      split; [rewrite D; reflexivity |]. split; [exact Hn |].
      intros p c H. rewrite finish_run in H. cbv zeta in H.
      destruct (makedirs s (dirname (arg argv 3))) as [s2 [e |]];
        try destruct (write_file s2 (arg argv 3) out) as [s3 [e |]];
        simpl in H; destruct H as [H | H]; try discriminate H;
        apply in_app_or in H; destruct H as [H | H];
        try (exfalso; exact (messages_write_nothing t p c Hmsg H));
        simpl in H; intuition congruence.
    + rewrite finish_run. simpl. rewrite app_nil_r, Ht. discriminate.
    + simpl. rewrite Ht. discriminate.
    + simpl. rewrite Ht. discriminate.
  - destruct (Nat.eq_dec (List.length argv) 5) as [Hlen | Hlen];
      [| rewrite (main_usage argv s Hlen); reflexivity].
    rewrite (main_run argv s Hlen).
    destruct (py_int (arg argv 1)) as [e | method]; [reflexivity |].
    destruct (py_int (arg argv 4)) as [e | n]; [reflexivity |].
    destruct (read_file s (arg argv 2)) as [e | data]; [reflexivity |].
    pose proof (dispatch_frame (Some 1) method data n s) as F.
    destruct (dispatch (Some 1) method data n s) as [[r s1] t].
    destruct F as (-> & Hmsg & _).
    destruct r as [[out |] | e | c]; try reflexivity.
    rewrite finish_run. cbv zeta.
    destruct (makedirs s (dirname (arg argv 3))) as [s2 [e |]];
      try destruct (write_file s2 (arg argv 3) out) as [s3 [e |]];
      simpl; rewrite existsb_app; simpl; rewrite orb_true_r; discriminate.
Qed.

(** The scenario of the specification: [hello world] with expected size
    5 writes nothing; with expected size 11 the write follows a transform
    that returned the eleven bytes. *)
Lemma failed_transform_writes_nothing_witness :
  (snd (fst (main (R := Sample.runtime)
               ["process_data.py"; "0"; "hello.bin"; "out/hello"; "5"]
               Sample.disk))
   = Sample.disk
   /\ existsb touches_output
        (snd (main (R := Sample.runtime)
                ["process_data.py"; "0"; "hello.bin"; "out/hello"; "5"]
                Sample.disk))
      = false
   /\ exit_status
        (fst (fst (main (R := Sample.runtime)
                     ["process_data.py"; "0"; "hello.bin"; "out/hello"; "5"]
                     Sample.disk)))
      = 1)
  /\ (exists (method n : Z) (data out : bytes),
        py_int (Runtime := Sample.runtime) "0" = inr method
        /\ py_int (Runtime := Sample.runtime) "11" = inr n
        /\ read_file (Runtime := Sample.runtime) Sample.disk "hello.bin"
           = inr data
        /\ fst (fst (dispatch (R := Sample.runtime) (Some 1) method data n
                       Sample.disk))
           = Ret (Some out)
        /\ len out = n
        /\ forall (p : string) (c : bytes),
             In (WriteFile p c)
               (snd (main (R := Sample.runtime)
                       ["process_data.py"; "0"; "hello.bin"; "out/hello";
                        "11"] Sample.disk)) ->
             p = "out/hello" /\ c = out).
Proof.
  split.
  - apply (proj1 (failed_transform_writes_nothing (R := Sample.runtime)
                    ["process_data.py"; "0"; "hello.bin"; "out/hello"; "5"]
                    Sample.disk)
             0 5 (Sample.b "hello world"));
      try reflexivity.
    intros out. evaluate.
  - apply (proj1 (proj2 (failed_transform_writes_nothing
                           (R := Sample.runtime)
                           ["process_data.py"; "0"; "hello.bin";
                            "out/hello"; "11"] Sample.disk))).
    reflexivity.
Defined.

(** C9 (the key in the log).  With [verbose] bound, as the entry point
    binds it, a SYMMETRIC run that returns bytes has emitted exactly one
    informational log line, and that line carries the key prefix decoded
    as text; a run that returns no bytes has emitted none.  A valid key, a
    successful decryption to the expected size and a key that decodes as
    text make the run return the decrypted bytes.  The entry point adds
    no informational line of its own to those of the transform. *)
Theorem fernet_key_logged {R : Runtime} (v : Z) (data : bytes)
    (expected_size : Z) (s : FS) :
  (forall (decrypted : bytes) (s1 : FS) (t : list event),
     process_fernet (Some v) data expected_size s
     = (Ret (Some decrypted), s1, t) ->
     exists key_text : string,
       bytes_decode (slice_to 44 data) = inr key_text
       /\ info_lines t = ["Decrypted file with key: " ++ key_text])
  /\ (forall (r : res (option bytes)) (s1 : FS) (t : list event),
        process_fernet (Some v) data expected_size s = (r, s1, t) ->
        (forall decrypted : bytes, r <> Ret (Some decrypted)) ->
        info_lines t = [])
  /\ (forall (f : fernet) (decrypted : bytes) (key_text : string),
        44 <= len data ->
        validate_fernet_key (slice_to 44 data) = true ->
        Fernet (slice_to 44 data) = inr f ->
        decrypt f (slice_from 44 data) = inr decrypted ->
        len decrypted = expected_size ->
        bytes_decode (slice_to 44 data) = inr key_text ->
        process_fernet (Some v) data expected_size s
        = (Ret (Some decrypted), s,
           Log INFO ("Decrypted file with key: " ++ key_text)
           :: if v >=? 1
              then [Stdout ("Decrypted file with key: " ++ key_text)]
              else []))
  /\ (forall argv : list string,
        List.length argv = 5%nat ->
        py_int (arg argv 1) = inr 3 ->
        py_int (arg argv 4) = inr expected_size ->
        read_file s (arg argv 2) = inr data ->
        info_lines (snd (main argv s))
        = info_lines (snd (process_fernet (Some 1) data expected_size s))).
Proof.
  split; [| split; [| split]];
    [| | | intros argv Hlen Hmethod Hsize Hread;
           exact (main_info_lines argv s 3 expected_size data
                    Hlen Hmethod Hsize Hread)];
    rewrite process_fernet_run; cbv zeta; unfold decryption_failed.
  - intros decrypted s1 t.
    destruct (len data <? 44); [discriminate |].
    destruct (validate_fernet_key (slice_to 44 data)); [| discriminate].
    destruct (Fernet (slice_to 44 data)) as [e | f]; [discriminate |].
    destruct (decrypt f (slice_from 44 data)) as [e | d]; [discriminate |].
    destruct (len d =? expected_size); [| discriminate].
    destruct (bytes_decode (slice_to 44 data)) as [e | key_text];
      [discriminate |].
    intros [= _ _ <-]. exists key_text. split; [reflexivity |].
    destruct (v >=? 1); reflexivity.
  - intros r s1 t.
    destruct (len data <? 44); [intros [= _ _ <-] _; reflexivity |].
    destruct (validate_fernet_key (slice_to 44 data));
      [| intros [= _ _ <-] _; reflexivity].
    destruct (Fernet (slice_to 44 data)) as [e | f];
      [intros [= _ _ <-] _; reflexivity |].
    destruct (decrypt f (slice_from 44 data)) as [e | d];
      [intros [= _ _ <-] _; reflexivity |].
    destruct (len d =? expected_size); [| intros [= _ _ <-] _; reflexivity].
    destruct (bytes_decode (slice_to 44 data)) as [e | key_text];
      [intros [= _ _ <-] _; reflexivity |].
    intros [= <- _ _] H. exfalso. apply (H d). reflexivity.
  - intros f decrypted key_text H Hkey Hf Hd Hlen Htext.
    destruct (Z.ltb_spec (len data) 44); [lia |].
    rewrite Hkey, Hf, Hd, Htext.
    destruct (Z.eqb_spec (len decrypted) expected_size); [| contradiction].
    reflexivity.
Qed.

(** The test vector with expected size 5 logs its key once; with expected
    size 6 it logs no key; the whole invocation logs what the transform
    logs. *)
Lemma fernet_key_logged_witness :
  info_lines
    (snd (process_fernet (R := Sample.runtime) (Some 1)
            (Sample.vector_key ++ Sample.vector_token)%list 5 Sample.disk))
  = ["Decrypted file with key: cw_0x689RpI-jtRR7oE8h_eQsKImvJapLeSbXpwF4e4="]
  /\ info_lines
       (snd (process_fernet (R := Sample.runtime) (Some 1)
               (Sample.vector_key ++ Sample.vector_token)%list 6
               Sample.disk))
     = []
  /\ info_lines
       (snd (main (R := Sample.runtime)
               ["process_data.py"; "3"; "hello.fernet"; "out/hello"; "5"]
               Sample.disk))
     = info_lines
         (snd (process_fernet (R := Sample.runtime) (Some 1)
                 (Sample.vector_key ++ Sample.vector_token)%list 5
                 Sample.disk)).
Proof.
  split; [| split].
  - destruct (proj1 (fernet_key_logged (R := Sample.runtime) 1
                       (Sample.vector_key ++ Sample.vector_token)%list 5
                       Sample.disk)
                (Sample.b "hello") Sample.disk _ eq_refl)
      as (key_text & Htext & Hinfo).
    injection Htext as <-. exact Hinfo.
  - apply (proj1 (proj2 (fernet_key_logged (R := Sample.runtime) 1
                           (Sample.vector_key ++ Sample.vector_token)%list
                           6 Sample.disk))
             (Ret None) Sample.disk _ eq_refl).
    intros decrypted. discriminate.
  - apply (proj2 (proj2 (proj2 (fernet_key_logged (R := Sample.runtime) 1
                                  (Sample.vector_key
                                   ++ Sample.vector_token)%list
                                  5 Sample.disk)))
             ["process_data.py"; "3"; "hello.fernet"; "out/hello"; "5"]);
      reflexivity.
Defined.

(** C10 (bare output file name).  When the transform has returned bytes
    and [os.path.dirname(output_file)] is the empty string, the entry point
    calls [os.makedirs('')] outside any [try]; given that this call raises
    (in CPython it raises [FileNotFoundError]), the exception ends the
    program: the output file is not written and no line is logged for the
    failure, in particular no [OutputWriteError]. *)
Theorem bare_output_name_crashes {R : Runtime} (argv : list string) (s : FS)
    (method n : Z) (data out : bytes) (s1 : FS) (e : exn) :
  List.length argv = 5%nat ->
  py_int (arg argv 1) = inr method ->
  py_int (arg argv 4) = inr n ->
  read_file s (arg argv 2) = inr data ->
  fst (fst (dispatch (Some 1) method data n s)) = Ret (Some out) ->
  dirname (arg argv 3) = EmptyString ->
  makedirs s EmptyString = (s1, Some e) ->
  main argv s
  = (Raise e, s1,
     ReadFile (arg argv 2)
     :: (snd (dispatch (Some 1) method data n s)
         ++ [Makedirs EmptyString])%list)
  /\ exit_status (fst (fst (main argv s))) = 1
  /\ (forall (p : string) (c : bytes),
        ~ In (WriteFile p c) (snd (main argv s)))
  /\ failures (snd (main argv s)) = [].
Proof.
  intros Hlen Hmethod Hsize Hread Hout Hdir Hmk.
  assert (E : main argv s
              = (Raise e, s1,
                 ReadFile (arg argv 2)
                 :: (snd (dispatch (Some 1) method data n s)
                     ++ [Makedirs EmptyString])%list)).
  { rewrite (main_run argv s Hlen), Hmethod, Hsize, Hread.
    pose proof (dispatch_frame (Some 1) method data n s) as F.
    destruct (dispatch (Some 1) method data n s) as [[r s2] t].
    destruct F as (-> & _ & _). simpl in Hout. subst r.
    rewrite finish_run. cbv zeta. rewrite Hdir, Hmk. reflexivity. }
  rewrite E. simpl.
  pose proof (dispatch_frame (Some 1) method data n s) as F.
  destruct (dispatch (Some 1) method data n s) as [[r s2] t].
  destruct F as (_ & Hmsg & F). simpl in Hout |- *.
  destruct (F out Hout) as (_ & _ & _ & Hfail).
  split; [reflexivity |]. split; [reflexivity |]. split.
  - intros p c [H | H]; [discriminate H |].
    apply in_app_or in H. destruct H as [H | [H | []]]; [| discriminate H].
    exact (messages_write_nothing t p c Hmsg H).
  - rewrite failures_app, Hfail. reflexivity.
Qed.

(** [hello world] with its expected size 11 and the output name
    [out.bin]. *)
Lemma bare_output_name_crashes_witness :
  main (R := Sample.runtime)
    ["process_data.py"; "0"; "hello.bin"; "out.bin"; "11"] Sample.disk
  = (Raise (Sample.no_such_file EmptyString), Sample.disk,
     [ReadFile "hello.bin"; Makedirs EmptyString]).
Proof.
  apply (bare_output_name_crashes (R := Sample.runtime)
           ["process_data.py"; "0"; "hello.bin"; "out.bin"; "11"]
           Sample.disk 0 11 (Sample.b "hello world") (Sample.b "hello world")
           Sample.disk (Sample.no_such_file EmptyString));
    reflexivity.
Defined.

(** * Further properties of the script *)

Section MoreRuns.

Context {R : Runtime}.


Lemma stdout_lines_app (t1 t2 : list event) :
  stdout_lines (t1 ++ t2) = (stdout_lines t1 ++ stdout_lines t2)%list.
Proof.
  induction t1 as [| ev t1 IH]; [reflexivity |].
  destruct ev; simpl; congruence.
Qed.

Lemma error_log_lines_app (t1 t2 : list event) :
  error_log_lines (t1 ++ t2)
  = (error_log_lines t1 ++ error_log_lines t2)%list.
Proof.
  induction t1 as [| ev t1 IH]; [reflexivity |].
  destruct ev as [[] line | | | | |]; simpl; congruence.
Qed.

Lemma zlib_decompression_tags (text : string) :
  failures (error_events ("Zlib decompression failed: " ++ text))
  = [DecompressionError].
Proof. destruct text; reflexivity. Qed.

Lemma lzma_decompression_tags (text : string) :
  failures (error_events ("LZMA decompression failed: " ++ text))
  = [DecompressionError].
Proof. destruct text; reflexivity. Qed.

Lemma output_write_tags (text : string) :
  failures (error_events ("Failed to write output file " ++ text))
  = [OutputWriteError].
Proof. destruct text; reflexivity. Qed.

(** Splitting [key || token] at the length of the key. *)
Lemma slice_to_app (key token : bytes) (n : nat) :
  List.length key = n -> slice_to n (key ++ token)%list = key.
Proof.
  intros <-. unfold slice_to.
  induction key as [| c key IH]; simpl; [| rewrite IH; reflexivity].
  destruct token; reflexivity.
Qed.

Lemma slice_from_app (key token : bytes) (n : nat) :
  List.length key = n -> slice_from n (key ++ token)%list = token.
Proof.
  intros <-. unfold slice_from.
  induction key as [| c key IH]; simpl; [reflexivity | exact IH].
Qed.

(** Every run of a transform is one of a few shapes: bytes and no error
    line; no bytes and one tagged error line; an exception and an empty
    trace. *)
Lemma dispatch_shapes (verbose : option Z) (method : Z) (data : bytes)
    (n : Z) (s : FS) :
  let '(r, _, t) := dispatch verbose method data n s in
  stderr_lines t = error_log_lines t
  /\ match r with
     | Ret (Some _) => failures t = [] /\ error_log_lines t = []
     | Ret None | Exit _ =>
         exists (f : failure) (line : string),
           failures t = [f] /\ error_log_lines t = [line]
     | Raise _ => t = []
     end.
Proof.
  unfold dispatch.
  destruct (method =? 0).
  { rewrite process_none_run. destruct (len data =? n); simpl;
      (split; [reflexivity |]); eauto. }
  destruct (method =? 1).
  { rewrite process_zlib_run.
    destruct (zlib_decompress data) as [e | d];
      [destruct (is_zlib_error e) | destruct (len d =? n)];
      (split; [reflexivity |]); simpl; eauto.
    exists DecompressionError. eexists.
    split; [apply zlib_decompression_tags | reflexivity]. }
  destruct (method =? 2).
  { rewrite process_lzma_run.
    destruct (lzma_decompress data) as [e | d];
      [destruct (is_LZMAError e) | destruct (len d =? n)];
      (split; [reflexivity |]); simpl; eauto.
    exists DecompressionError. eexists.
    split; [apply lzma_decompression_tags | reflexivity]. }
  destruct (method =? 3).
  { assert (G : forall e,
               stderr_lines (snd (decryption_failed s e))
               = error_log_lines (snd (decryption_failed s e))
               /\ exists (f : failure) (line : string),
                    failures (snd (decryption_failed s e)) = [f]
                    /\ error_log_lines (snd (decryption_failed s e))
                       = [line]).
    { intros e. split; [reflexivity |].
      exists DecryptionError. eexists.
      split; [apply decryption_tags | reflexivity]. }
    rewrite process_fernet_run. cbv zeta.
    destruct (len data <? 44); [split; [reflexivity |]; simpl; eauto |].
    destruct (validate_fernet_key (slice_to 44 data));
      [| split; [reflexivity |]; simpl; eauto].
    destruct (Fernet (slice_to 44 data)) as [e | f]; [exact (G e) |].
    destruct (decrypt f (slice_from 44 data)) as [e | d]; [exact (G e) |].
    destruct (len d =? n); [| split; [reflexivity |]; simpl; eauto].
    destruct (bytes_decode (slice_to 44 data)) as [e | key_text];
      [exact (G e) |].
    destruct verbose as [v |].
    - destruct (v >=? 1); split; simpl; auto.
    - split; [reflexivity |]. exists DecryptionError. eexists.
      split; reflexivity. }
  split; [reflexivity |]. simpl. eauto.
Qed.

(** What a transform prints on standard output is decided by [verbose]. *)
Lemma dispatch_echo (verbose : option Z) (method : Z) (data : bytes)
    (n : Z) (s : FS) :
  stdout_lines (snd (dispatch verbose method data n s))
  = match verbose with
    | Some v =>
        if v >=? 1 then info_lines (snd (dispatch verbose method data n s))
        else []
    | None => []
    end.
Proof.
  assert (Q : forall t : list event,
             stdout_lines t = [] -> info_lines t = [] ->
             stdout_lines t
             = match verbose with
               | Some v => if v >=? 1 then info_lines t else []
               | None => []
               end).
  { intros t -> ->. destruct verbose as [v |]; [destruct (v >=? 1) |];
      reflexivity. }
  unfold dispatch.
  destruct (method =? 0).
  { rewrite process_none_run. destruct (len data =? n); apply Q; reflexivity. }
  destruct (method =? 1).
  { rewrite process_zlib_run.
    destruct (zlib_decompress data) as [e | d];
      [destruct (is_zlib_error e) | destruct (len d =? n)];
      apply Q; reflexivity. }
  destruct (method =? 2).
  { rewrite process_lzma_run.
    destruct (lzma_decompress data) as [e | d];
      [destruct (is_LZMAError e) | destruct (len d =? n)];
      apply Q; reflexivity. }
  destruct (method =? 3); [| apply Q; reflexivity].
  rewrite process_fernet_run. cbv zeta. unfold decryption_failed.
  destruct (len data <? 44); [apply Q; reflexivity |].
  destruct (validate_fernet_key (slice_to 44 data)); [| apply Q; reflexivity].
  destruct (Fernet (slice_to 44 data)) as [e | f]; [apply Q; reflexivity |].
  destruct (decrypt f (slice_from 44 data)) as [e | d];
    [apply Q; reflexivity |].
  destruct (len d =? n); [| apply Q; reflexivity].
  destruct (bytes_decode (slice_to 44 data)) as [e | key_text];
    [apply Q; reflexivity |].
  destruct verbose as [v |]; [destruct (v >=? 1) |]; reflexivity.
Qed.

Lemma finish_streams (output_file : string) (result : option bytes) (s : FS) :
  stderr_lines (snd (finish output_file result s))
  = error_log_lines (snd (finish output_file result s))
  /\ stdout_lines (snd (finish output_file result s)) = []
  /\ info_lines (snd (finish output_file result s)) = [].
Proof.
  rewrite finish_run. destruct result as [out |]; [| auto].
  cbv zeta.
  destruct (makedirs s (dirname output_file)) as [s1 [e |]]; [auto |].
  destruct (write_file s1 output_file out) as [s2 [e |]]; auto.
Qed.

(** The trace of the entry point once the input is read. *)
Lemma main_trace (argv : list string) (s : FS) (method n : Z) (data : bytes) :
  List.length argv = 5%nat ->
  py_int (arg argv 1) = inr method ->
  py_int (arg argv 4) = inr n ->
  read_file s (arg argv 2) = inr data ->
  exists t2 : list event,
    snd (main argv s)
    = ReadFile (arg argv 2)
      :: (snd (dispatch (Some 1) method data n s) ++ t2)%list
    /\ stderr_lines t2 = error_log_lines t2
    /\ stdout_lines t2 = []
    /\ info_lines t2 = [].
Proof.
  intros Hlen Hmethod Hsize Hread.
  rewrite (main_run argv s Hlen), Hmethod, Hsize, Hread.
  destruct (dispatch (Some 1) method data n s) as [[[result | e | c] s1] t].
  - pose proof (finish_streams (arg argv 3) result s1) as F.
    destruct (finish (arg argv 3) result s1) as [[r s2] t2].
    exists t2. split; [reflexivity | exact F].
  - exists []. rewrite app_nil_r. auto.
  - exists []. rewrite app_nil_r. auto.
Qed.

End MoreRuns.

(** ** Logging *)

(** X1.  Whatever a transform does, it ends in one of three ways: it
    returns bytes and has logged no error; it returns no bytes (or exits)
    and has logged exactly one error line, which carries a failure of the
    taxonomy; or an exception leaves it and it has emitted nothing. *)
Theorem transform_logs_one_error {R : Runtime} (verbose : option Z)
    (method : Z) (data : bytes) (n : Z) (s : FS) :
  let '(r, _, t) := dispatch verbose method data n s in
  match r with
  | Ret (Some _) => failures t = [] /\ error_log_lines t = []
  | Ret None | Exit _ =>
      exists (f : failure) (line : string),
        failures t = [f] /\ error_log_lines t = [line]
  | Raise _ => t = []
  end.
Proof.
  pose proof (dispatch_shapes verbose method data n s) as H.
  destruct (dispatch verbose method data n s) as [[r s1] t].
  exact (proj2 H).
Qed.



(** X3.  The entry point binds [verbose] to 1, so every informational
    line of an invocation is echoed on standard output, in order, and
    nothing else is printed there.  A transform called with [verbose]
    below 1 prints nothing on standard output. *)
Theorem info_lines_echoed {R : Runtime} (argv : list string) (s : FS) :
  stdout_lines (snd (main argv s)) = info_lines (snd (main argv s))
  /\ (forall (v method n : Z) (data : bytes),
        v < 1 ->
        stdout_lines (snd (dispatch (Some v) method data n s)) = []).
Proof.
  split.
  - destruct (Nat.eq_dec (List.length argv) 5) as [Hlen | Hlen];
      [| rewrite (main_usage argv s Hlen); reflexivity].
    destruct (py_int (arg argv 1)) as [e | method] eqn:Hmethod;
      [rewrite (main_run argv s Hlen), Hmethod; reflexivity |].
    destruct (py_int (arg argv 4)) as [e | n] eqn:Hsize;
      [rewrite (main_run argv s Hlen), Hmethod, Hsize; reflexivity |].
    destruct (read_file s (arg argv 2)) as [e | data] eqn:Hread;
      [rewrite (main_run argv s Hlen), Hmethod, Hsize, Hread; reflexivity |].
    destruct (main_trace argv s method n data Hlen Hmethod Hsize Hread)
      as (t2 & -> & _ & Hout & Hinfo).
    simpl. rewrite stdout_lines_app, info_lines_app, Hout, Hinfo.
    rewrite (dispatch_echo (Some 1) method data n s). reflexivity.
  - intros v method n data Hv.
    rewrite (dispatch_echo (Some v) method data n s).
    destruct (Z.geb_spec v 1); [lia | reflexivity].
Qed.

(** The test vector, decrypted in quiet mode, prints nothing. *)
Lemma info_lines_echoed_witness :
  0 < 1
  /\ stdout_lines
       (snd (dispatch (R := Sample.runtime) (Some 0) 3
               (Sample.vector_key ++ Sample.vector_token)%list 5
               Sample.disk))
     = [].
Proof.
  split; [lia |].
  apply (proj2 (info_lines_echoed (R := Sample.runtime) [] Sample.disk)
           0 3 5 (Sample.vector_key ++ Sample.vector_token)%list).
  lia.
Defined.

(** ** Decompression *)

(** X4.  When [zlib.decompress] raises [zlib.error], or [lzma.decompress]
    raises [LZMAError], the transform returns no bytes and logs the
    library's text after [Zlib decompression failed: ] or
    [LZMA decompression failed: ], whatever the expected size: the failure
    is [DecompressionError], and an invocation that reaches the transform
    exits with code 1 after the one error line. *)
Theorem decompression_error_logged {R : Runtime} (data : bytes) (n : Z)
    (s : FS) (e : exn) :
  (zlib_decompress data = inl e ->
   is_zlib_error e = true ->
   process_zlib data n s
   = (Ret None, s, error_events ("Zlib decompression failed: " ++ exn_str e))
   /\ transform 1 data n s = Failed [DecompressionError])
  /\ (lzma_decompress data = inl e ->
      is_LZMAError e = true ->
      process_lzma data n s
      = (Ret None, s,
         error_events ("LZMA decompression failed: " ++ exn_str e))
      /\ transform 2 data n s = Failed [DecompressionError])
  /\ (forall (argv : list string) (method : Z),
        List.length argv = 5%nat ->
        py_int (arg argv 1) = inr method ->
        py_int (arg argv 4) = inr n ->
        read_file s (arg argv 2) = inr data ->
        (method = 1 /\ zlib_decompress data = inl e /\ is_zlib_error e = true)
        \/ (method = 2 /\ lzma_decompress data = inl e
            /\ is_LZMAError e = true) ->
        fst (main argv s) = (Exit 1, s)
        /\ failures (snd (main argv s)) = [DecompressionError]).
Proof.
  assert (Z1 : zlib_decompress data = inl e -> is_zlib_error e = true ->
               process_zlib data n s
               = (Ret None, s,
                  error_events ("Zlib decompression failed: " ++ exn_str e))).
  { intros H He. rewrite process_zlib_run, H, He. reflexivity. }
  assert (L1 : lzma_decompress data = inl e -> is_LZMAError e = true ->
               process_lzma data n s
               = (Ret None, s,
                  error_events ("LZMA decompression failed: " ++ exn_str e))).
  { intros H He. rewrite process_lzma_run, H, He. reflexivity. }
  split; [| split].
  - intros H He. split; [exact (Z1 H He) |].
    unfold transform.
    change (dispatch (Some 1) 1 data n s) with (process_zlib data n s).
    rewrite (Z1 H He). unfold observe.
    rewrite zlib_decompression_tags. reflexivity.
  - intros H He. split; [exact (L1 H He) |].
    unfold transform.
    change (dispatch (Some 1) 2 data n s) with (process_lzma data n s).
    rewrite (L1 H He). unfold observe.
    rewrite lzma_decompression_tags. reflexivity.
  - intros argv method Hlen Hmethod Hsize Hread
      [(-> & H & He) | (-> & H & He)].
    + assert (D : dispatch (Some 1) 1 data n s
                  = (Ret None, s,
                     error_events
                       ("Zlib decompression failed: " ++ exn_str e)))
        by exact (Z1 H He).
      rewrite (main_after_failed_transform argv s 1 n data
                 Hlen Hmethod Hsize Hread);
        rewrite D; [| discriminate].
      split; [reflexivity |].
      change (failures (error_events
                          ("Zlib decompression failed: " ++ exn_str e))
              = [DecompressionError]).
      apply zlib_decompression_tags.
    + assert (D : dispatch (Some 1) 2 data n s
                  = (Ret None, s,
                     error_events
                       ("LZMA decompression failed: " ++ exn_str e)))
        by exact (L1 H He).
      rewrite (main_after_failed_transform argv s 2 n data
                 Hlen Hmethod Hsize Hread);
        rewrite D; [| discriminate].
      split; [reflexivity |].
      change (failures (error_events
                          ("LZMA decompression failed: " ++ exn_str e))
              = [DecompressionError]).
      apply lzma_decompression_tags.
Qed.

(** [hello world] itself is neither a zlib nor an XZ stream. *)
Lemma decompression_error_logged_witness :
  process_zlib (R := Sample.runtime) (Sample.b "hello world") 11 Sample.disk
  = (Ret None, Sample.disk,
     error_events
       "Zlib decompression failed: Error -3 while decompressing data: incorrect header check")
  /\ transform (R := Sample.runtime) 2 (Sample.b "hello world") 11
       Sample.disk
     = Failed [DecompressionError]
  /\ failures
       (snd (main (R := Sample.runtime)
               ["process_data.py"; "1"; "hello.bin"; "out/hello"; "11"]
               Sample.disk))
     = [DecompressionError].
Proof.
  split; [| split].
  - apply (proj1 (decompression_error_logged (R := Sample.runtime)
                    (Sample.b "hello world") 11 Sample.disk
                    (Exn zlib_error
                       "Error -3 while decompressing data: incorrect header check")));
      reflexivity.
  - apply (proj1 (proj2 (decompression_error_logged (R := Sample.runtime)
                           (Sample.b "hello world") 11 Sample.disk
                           (Exn LZMAError
                              "Input format not supported by decoder"))));
      reflexivity.
  - apply (proj2 (proj2 (decompression_error_logged (R := Sample.runtime)
                           (Sample.b "hello world") 11 Sample.disk
                           (Exn zlib_error
                              "Error -3 while decompressing data: incorrect header check")))
             ["process_data.py"; "1"; "hello.bin"; "out/hello"; "11"] 1);
      try reflexivity.
    left. repeat split; reflexivity.
Defined.

(** X5.  [process_zlib] catches [zlib.error] only and [process_lzma]
    catches [LZMAError] only: an exception of another class raised by the
    decompressor leaves the transform with nothing logged, and ends an
    invocation with that exception after the input was read -- no error
    line, no output. *)
Theorem foreign_exception_escapes {R : Runtime} (data : bytes) (n : Z)
    (s : FS) (e : exn) :
  (zlib_decompress data = inl e ->
   is_zlib_error e = false ->
   process_zlib data n s = (Raise e, s, [])
   /\ transform 1 data n s = Uncaught e)
  /\ (lzma_decompress data = inl e ->
      is_LZMAError e = false ->
      process_lzma data n s = (Raise e, s, [])
      /\ transform 2 data n s = Uncaught e)
  /\ (forall (argv : list string) (method : Z),
        List.length argv = 5%nat ->
        py_int (arg argv 1) = inr method ->
        py_int (arg argv 4) = inr n ->
        read_file s (arg argv 2) = inr data ->
        (method = 1 /\ zlib_decompress data = inl e
         /\ is_zlib_error e = false)
        \/ (method = 2 /\ lzma_decompress data = inl e
            /\ is_LZMAError e = false) ->
        main argv s = (Raise e, s, [ReadFile (arg argv 2)])).
Proof.
  assert (Z1 : zlib_decompress data = inl e -> is_zlib_error e = false ->
               process_zlib data n s = (Raise e, s, [])).
  { intros H He. rewrite process_zlib_run, H, He. reflexivity. }
  assert (L1 : lzma_decompress data = inl e -> is_LZMAError e = false ->
               process_lzma data n s = (Raise e, s, [])).
  { intros H He. rewrite process_lzma_run, H, He. reflexivity. }
  split; [| split].
  - intros H He. split; [exact (Z1 H He) |].
    unfold transform.
    change (dispatch (Some 1) 1 data n s) with (process_zlib data n s).
    rewrite (Z1 H He). reflexivity.
  - intros H He. split; [exact (L1 H He) |].
    unfold transform.
    change (dispatch (Some 1) 2 data n s) with (process_lzma data n s).
    rewrite (L1 H He). reflexivity.
  - intros argv method Hlen Hmethod Hsize Hread
      [(-> & H & He) | (-> & H & He)];
      rewrite (main_run argv s Hlen), Hmethod, Hsize, Hread.
    + change (dispatch (Some 1) 1 data n s) with (process_zlib data n s).
      rewrite (Z1 H He). reflexivity.
    + change (dispatch (Some 1) 2 data n s) with (process_lzma data n s).
      rewrite (L1 H He). reflexivity.
Qed.

(** A [MemoryError] of the decompressor ends the program. *)
Lemma foreign_exception_escapes_witness :
  transform (R := Exhausted.runtime) 1
    (Sample.zlib_compress (Sample.b "hello world")) 11 Sample.disk
  = Uncaught Exhausted.MemoryError
  /\ main (R := Exhausted.runtime)
       ["process_data.py"; "2"; "hello.xz"; "out/hello"; "11"] Sample.disk
     = (Raise Exhausted.MemoryError, Sample.disk, [ReadFile "hello.xz"]).
Proof.
  split.
  - apply (proj1 (foreign_exception_escapes (R := Exhausted.runtime)
                    (Sample.zlib_compress (Sample.b "hello world")) 11
                    Sample.disk Exhausted.MemoryError));
      reflexivity.
  - apply (proj2 (proj2 (foreign_exception_escapes (R := Exhausted.runtime)
                           (Sample.lzma_compress (Sample.b "hello world"))
                           11 Sample.disk Exhausted.MemoryError))
             ["process_data.py"; "2"; "hello.xz"; "out/hello"; "11"] 2);
      try reflexivity.
    right. repeat split; reflexivity.
Defined.

(** ** The SYMMETRIC transform *)

(** X6 (symmetric round trip).  The input is split at byte 44: for a key
    of 44 bytes that passes the validation, that [Fernet] accepts and that
    decodes as text, followed by a token that the cipher decrypts to [p],
    the transform with expected size [len p] returns [p], having logged
    the key once; an empty token is passed to the cipher as it is. *)
Theorem fernet_round_trip {R : Runtime} (v : Z) (key token p : bytes)
    (f : fernet) (key_text : string) (s : FS) :
  len key = 44 ->
  validate_fernet_key key = true ->
  Fernet key = inr f ->
  decrypt f token = inr p ->
  bytes_decode key = inr key_text ->
  process_fernet (Some v) (key ++ token)%list (len p) s
  = (Ret (Some p), s,
     Log INFO ("Decrypted file with key: " ++ key_text)
     :: if v >=? 1
        then [Stdout ("Decrypted file with key: " ++ key_text)]
        else [])
  /\ transform 3 (key ++ token)%list (len p) s = Returned p.
Proof.
  intros Hlen Hkey Hf Hd Htext.
  assert (Hn : List.length key = 44%nat) by (unfold len in Hlen; lia).
  assert (E : forall v' : Z,
             process_fernet (Some v') (key ++ token)%list (len p) s
             = (Ret (Some p), s,
                Log INFO ("Decrypted file with key: " ++ key_text)
                :: if v' >=? 1
                   then [Stdout ("Decrypted file with key: " ++ key_text)]
                   else [])).
  { intros v'. rewrite process_fernet_run. cbv zeta.
    rewrite (slice_to_app key token 44 Hn), (slice_from_app key token 44 Hn).
    destruct (Z.ltb_spec (len (key ++ token)%list) 44) as [H | H].
    { unfold len in H. rewrite length_app in H. lia. }
    rewrite Hkey, Hf, Hd, Htext, Z.eqb_refl. reflexivity. }
  split; [exact (E v) |].
  unfold transform.
  change (dispatch (Some 1) 3 (key ++ token)%list (len p) s)
    with (process_fernet (Some 1) (key ++ token)%list (len p) s).
  rewrite (E 1). reflexivity.
Qed.

(** The test vector of the Fernet specification. *)
Lemma fernet_round_trip_witness :
  len Sample.vector_key = 44
  /\ transform (R := Sample.runtime) 3
       (Sample.vector_key ++ Sample.vector_token)%list
       (len (Sample.b "hello")) Sample.disk
     = Returned (Sample.b "hello").
Proof.
  split; [reflexivity |].
  apply (fernet_round_trip (R := Sample.runtime) 1 Sample.vector_key
           Sample.vector_token (Sample.b "hello") Sample.vector_raw_key
           "cw_0x689RpI-jtRR7oE8h_eQsKImvJapLeSbXpwF4e4=" Sample.disk);
    reflexivity.
Defined.


(** X8.  When [verbose] is not bound (the functions are called without
    the entry point having run), [process_fernet] never returns bytes: a
    decryption that succeeds with the expected size logs the key at
    informational level and then fails on the unbound name, which the
    [except] clause reports as a decryption failure. *)
Theorem fernet_unbound_verbose {R : Runtime} (data : bytes) (n : Z)
    (s : FS) :
  (forall out : bytes,
     fst (fst (process_fernet None data n s)) <> Ret (Some out))
  /\ (forall (f : fernet) (decrypted : bytes) (key_text : string),
        44 <= len data ->
        validate_fernet_key (slice_to 44 data) = true ->
        Fernet (slice_to 44 data) = inr f ->
        decrypt f (slice_from 44 data) = inr decrypted ->
        len decrypted = n ->
        bytes_decode (slice_to 44 data) = inr key_text ->
        process_fernet None data n s
        = (Ret None, s,
           Log INFO ("Decrypted file with key: " ++ key_text)
           :: error_events
                "Fernet decryption failed: name 'verbose' is not defined")
        /\ observe (process_fernet None data n s)
           = Failed [DecryptionError]).
Proof.
  rewrite process_fernet_run. cbv zeta. unfold decryption_failed.
  split.
  - intros out.
    destruct (len data <? 44); [discriminate |].
    destruct (validate_fernet_key (slice_to 44 data)); [| discriminate].
    destruct (Fernet (slice_to 44 data)) as [e | f]; [discriminate |].
    destruct (decrypt f (slice_from 44 data)) as [e | d]; [discriminate |].
    destruct (len d =? n); [| discriminate].
    destruct (bytes_decode (slice_to 44 data)); discriminate.
  - intros f decrypted key_text H Hkey Hf Hd Hlen Htext.
    destruct (Z.ltb_spec (len data) 44); [lia |].
    rewrite Hkey, Hf, Hd, Htext.
    destruct (Z.eqb_spec (len decrypted) n); [| contradiction].
    split; reflexivity.
Qed.

(** The test vector, decrypted without the entry point. *)
Lemma fernet_unbound_verbose_witness :
  process_fernet (R := Sample.runtime) None
    (Sample.vector_key ++ Sample.vector_token)%list 5 Sample.disk
  = (Ret None, Sample.disk,
     Log INFO
       "Decrypted file with key: cw_0x689RpI-jtRR7oE8h_eQsKImvJapLeSbXpwF4e4="
     :: error_events
          "Fernet decryption failed: name 'verbose' is not defined").
Proof.
  apply (proj2 (fernet_unbound_verbose (R := Sample.runtime)
                  (Sample.vector_key ++ Sample.vector_token)%list 5
                  Sample.disk)
           Sample.vector_raw_key (Sample.b "hello")
           "cw_0x689RpI-jtRR7oE8h_eQsKImvJapLeSbXpwF4e4=");
    evaluate.
Defined.

(** ** The entry point: reading, creating the directory, writing *)

(** X9.  The conversions and the read come before anything is logged and
    are not guarded: a method that [int] rejects ends the program with
    that exception even when the expected size is bad too; otherwise a bad
    expected size does; otherwise an input file that cannot be read does,
    after the one read attempt.  In all three cases nothing is logged or
    printed and the file system is unchanged. *)
Theorem early_failures_uncaught {R : Runtime} (argv : list string) (s : FS) :
  List.length argv = 5%nat ->
  (forall e : exn,
     py_int (arg argv 1) = inl e -> main argv s = (Raise e, s, []))
  /\ (forall (method : Z) (e : exn),
        py_int (arg argv 1) = inr method ->
        py_int (arg argv 4) = inl e ->
        main argv s = (Raise e, s, []))
  /\ (forall (method n : Z) (e : exn),
        py_int (arg argv 1) = inr method ->
        py_int (arg argv 4) = inr n ->
        read_file s (arg argv 2) = inl e ->
        main argv s = (Raise e, s, [ReadFile (arg argv 2)])).
Proof.
  intros Hlen. rewrite (main_run argv s Hlen).
  split; [| split].
  - intros e ->. reflexivity.
  - intros method e -> ->. reflexivity.
  - intros method n e -> -> ->. reflexivity.
Qed.

(** A method and a size that are both no integers; a missing input. *)
Lemma early_failures_uncaught_witness :
  main (R := Sample.runtime)
    ["process_data.py"; "zlib"; "hello.z"; "out/hello"; "eleven"] Sample.disk
  = (Raise (Exn ValueError "invalid literal for int() with base 10: 'zlib'"),
     Sample.disk, [])
  /\ main (R := Sample.runtime)
       ["process_data.py"; "1"; "missing.z"; "out/hello"; "11"] Sample.disk
     = (Raise (Sample.no_such_file "missing.z"), Sample.disk,
        [ReadFile "missing.z"]).
Proof.
  split.
  - apply (proj1 (early_failures_uncaught (R := Sample.runtime)
                    ["process_data.py"; "zlib"; "hello.z"; "out/hello";
                     "eleven"] Sample.disk eq_refl)).
    reflexivity.
  - apply (proj2 (proj2 (early_failures_uncaught (R := Sample.runtime)
                           ["process_data.py"; "1"; "missing.z"; "out/hello";
                            "11"] Sample.disk eq_refl)) 1 11);
      reflexivity.
Defined.

(** X10.  After a transform that returned bytes, the entry point creates
    the directory of the output path and then writes exactly those bytes
    to the output path: when both calls succeed the program ends normally
    (status 0) in the file system the write left, and the two calls are
    the last events of the run, in that order. *)
Theorem success_writes_result {R : Runtime} (argv : list string) (s : FS)
    (method n : Z) (data out : bytes) (s1 s2 : FS) :
  List.length argv = 5%nat ->
  py_int (arg argv 1) = inr method ->
  py_int (arg argv 4) = inr n ->
  read_file s (arg argv 2) = inr data ->
  fst (fst (dispatch (Some 1) method data n s)) = Ret (Some out) ->
  makedirs s (dirname (arg argv 3)) = (s1, None) ->
  write_file s1 (arg argv 3) out = (s2, None) ->
  main argv s
  = (Ret tt, s2,
     ReadFile (arg argv 2)
     :: (snd (dispatch (Some 1) method data n s)
         ++ [Makedirs (dirname (arg argv 3)); WriteFile (arg argv 3) out])%list)
  /\ len out = n
  /\ failures (snd (main argv s)) = [].
Proof.
  intros Hlen Hmethod Hsize Hread Hout Hmk Hwr.
  rewrite (main_run argv s Hlen), Hmethod, Hsize, Hread.
  pose proof (dispatch_frame (Some 1) method data n s) as F.
  destruct (dispatch (Some 1) method data n s) as [[r s0] t].
  destruct F as (-> & _ & F). simpl in Hout. subst r.
  destruct (F out eq_refl) as (_ & Hn & _ & Hfail).
  rewrite finish_run. cbv zeta. rewrite Hmk, Hwr. simpl.
  split; [reflexivity |]. split; [exact Hn |].
  rewrite failures_app, Hfail. reflexivity.
Qed.

(** [hello.z] inflated into the new directory [new]. *)
Lemma success_writes_result_witness :
  main (R := Sample.runtime)
    ["process_data.py"; "1"; "hello.z"; "new/hello"; "11"] Sample.disk
  = (Ret tt,
     Sample.Fsys (("new/hello", Sample.b "hello world")
                  :: Sample.files Sample.disk)
       ["new"; "out"],
     [ReadFile "hello.z"; Makedirs "new";
      WriteFile "new/hello" (Sample.b "hello world")]).
Proof.
  apply (success_writes_result (R := Sample.runtime)
           ["process_data.py"; "1"; "hello.z"; "new/hello"; "11"]
           Sample.disk 1 11
           (Sample.zlib_compress (Sample.b "hello world"))
           (Sample.b "hello world")
           (Sample.Fsys (Sample.files Sample.disk) ["new"; "out"]));
    reflexivity.
Defined.

(** X11.  The exit status of an invocation is 0 or 1, and it is 0 only on
    the path of X10: five arguments, both integers parsed, the input read,
    a transform that returned bytes of the expected size, the directory
    created and those bytes written to the output path as the last event
    of the run. *)
Theorem exit_status_zero_means_written {R : Runtime} (argv : list string)
    (s : FS) :
  (exit_status (fst (fst (main argv s))) = 0
   \/ exit_status (fst (fst (main argv s))) = 1)
  /\ (exit_status (fst (fst (main argv s))) = 0 ->
      exists (method n : Z) (data out : bytes) (s1 : FS),
        List.length argv = 5%nat
        /\ py_int (arg argv 1) = inr method
        /\ py_int (arg argv 4) = inr n
        /\ read_file s (arg argv 2) = inr data
        /\ fst (fst (dispatch (Some 1) method data n s)) = Ret (Some out)
        /\ len out = n
        /\ makedirs s (dirname (arg argv 3)) = (s1, None)
        /\ write_file s1 (arg argv 3) out = (snd (fst (main argv s)), None)
        /\ exists t : list event,
             snd (main argv s)
             = (t ++ [WriteFile (arg argv 3) out])%list).
Proof.
  destruct (Nat.eq_dec (List.length argv) 5) as [Hlen | Hlen];
    [| rewrite (main_usage argv s Hlen); simpl; split;
       [auto | discriminate]].
  rewrite (main_run argv s Hlen).
  destruct (py_int (arg argv 1)) as [e | method];
    [simpl; split; [auto | discriminate] |].
  destruct (py_int (arg argv 4)) as [e | n];
    [simpl; split; [auto | discriminate] |].
  destruct (read_file s (arg argv 2)) as [e | data];
    [simpl; split; [auto | discriminate] |].
  pose proof (dispatch_frame (Some 1) method data n s) as F.
  pose proof (dispatch_exit (Some 1) method data n s) as X.
  destruct (dispatch (Some 1) method data n s) as [[r s0] t] eqn:D.
  destruct F as (-> & _ & F).
  destruct r as [[out |] | e | c].
  - destruct (F out eq_refl) as (_ & Hn & _ & _).
    rewrite finish_run. cbv zeta.
    destruct (makedirs s (dirname (arg argv 3))) as [s1 [e |]] eqn:Hmk;
      [simpl; split; [auto | discriminate] |].
    destruct (write_file s1 (arg argv 3) out) as [s2 [e |]] eqn:Hwr;
      [simpl; split; [auto | discriminate] |].
    simpl. split; [auto |]. intros _.
    exists method, n, data, out, s1.
    split; [exact Hlen |]. do 3 (split; [reflexivity |]).
    split; [rewrite D; reflexivity |].
    split; [exact Hn |]. split; [reflexivity |]. split; [exact Hwr |].
    exists (ReadFile (arg argv 2)
            :: t ++ [Makedirs (dirname (arg argv 3))])%list.
    simpl. rewrite <- app_assoc. reflexivity.
  - rewrite finish_run. simpl. split; [auto | discriminate].
  - simpl. split; [auto | discriminate].
  - rewrite (X s c t eq_refl). simpl. split; [auto | discriminate].
Qed.

(** The run of X10's example ended with status 0. *)
Lemma exit_status_zero_means_written_witness :
  exists (method n : Z) (data out : bytes) (s1 : Sample.fsys),
    List.length ["process_data.py"; "1"; "hello.z"; "new/hello"; "11"] = 5%nat
    /\ py_int (Runtime := Sample.runtime) "1" = inr method
    /\ py_int (Runtime := Sample.runtime) "11" = inr n
    /\ read_file (Runtime := Sample.runtime) Sample.disk "hello.z" = inr data
    /\ fst (fst (dispatch (R := Sample.runtime) (Some 1) method data n
                   Sample.disk))
       = Ret (Some out)
    /\ len out = n
    /\ makedirs (Runtime := Sample.runtime) Sample.disk "new" = (s1, None)
    /\ write_file (Runtime := Sample.runtime) s1 "new/hello" out
       = (snd (fst (main (R := Sample.runtime)
                      ["process_data.py"; "1"; "hello.z"; "new/hello"; "11"]
                      Sample.disk)), None)
    /\ exists t : list event,
         snd (main (R := Sample.runtime)
                ["process_data.py"; "1"; "hello.z"; "new/hello"; "11"]
                Sample.disk)
         = (t ++ [WriteFile "new/hello" out])%list.
Proof.
  apply (proj2 (exit_status_zero_means_written (R := Sample.runtime)
                  ["process_data.py"; "1"; "hello.z"; "new/hello"; "11"]
                  Sample.disk)).
  reflexivity.
Defined.

(** X12.  When writing the output raises, the entry point catches the
    exception, logs and prints [Failed to write output file], the output
    path and the text of the exception, and exits with code 1: the one
    failure of the run is [OutputWriteError].  The directory created
    before stays: the file system is the one the failed write left. *)
Theorem write_failure_logged {R : Runtime} (argv : list string) (s : FS)
    (method n : Z) (data out : bytes) (s1 s2 : FS) (e : exn) :
  List.length argv = 5%nat ->
  py_int (arg argv 1) = inr method ->
  py_int (arg argv 4) = inr n ->
  read_file s (arg argv 2) = inr data ->
  fst (fst (dispatch (Some 1) method data n s)) = Ret (Some out) ->
  makedirs s (dirname (arg argv 3)) = (s1, None) ->
  write_file s1 (arg argv 3) out = (s2, Some e) ->
  main argv s
  = (Exit 1, s2,
     ReadFile (arg argv 2)
     :: (snd (dispatch (Some 1) method data n s)
         ++ Makedirs (dirname (arg argv 3))
            :: WriteFile (arg argv 3) out
            :: error_events ("Failed to write output file " ++ arg argv 3
                             ++ ": " ++ exn_str e))%list)
  /\ failures (snd (main argv s)) = [OutputWriteError].
Proof.
  intros Hlen Hmethod Hsize Hread Hout Hmk Hwr.
  rewrite (main_run argv s Hlen), Hmethod, Hsize, Hread.
  pose proof (dispatch_frame (Some 1) method data n s) as F.
  destruct (dispatch (Some 1) method data n s) as [[r s0] t].
  destruct F as (-> & _ & F). simpl in Hout. subst r.
  destruct (F out eq_refl) as (_ & _ & _ & Hfail).
  rewrite finish_run. cbv zeta. rewrite Hmk, Hwr.
  split; [reflexivity |].
  cbn [snd failures]. rewrite failures_app, Hfail. cbn [app failures].
  apply output_write_tags.
Qed.

(** [hello world] passed through to [out/hello] on a read-only volume. *)
Lemma write_failure_logged_witness :
  main (R := ReadOnly.runtime)
    ["process_data.py"; "0"; "hello.bin"; "out/hello"; "11"] Sample.disk
  = (Exit 1, Sample.disk,
     [ReadFile "hello.bin"; Makedirs "out";
      WriteFile "out/hello" (Sample.b "hello world");
      Log ERROR
        "ERROR: Failed to write output file out/hello: [Errno 13] Permission denied: 'out/hello'";
      Stderr
        "ERROR: Failed to write output file out/hello: [Errno 13] Permission denied: 'out/hello'"]).
Proof.
  apply (write_failure_logged (R := ReadOnly.runtime)
           ["process_data.py"; "0"; "hello.bin"; "out/hello"; "11"]
           Sample.disk 0 11 (Sample.b "hello world") (Sample.b "hello world")
           Sample.disk Sample.disk (ReadOnly.permission_denied "out/hello"));
    reflexivity.
Defined.

(** X13.  [os.makedirs] is called outside the [try]: whenever it raises,
    for whatever output path, the exception ends the program after a
    transform that had succeeded; the output file is not opened, no error
    line is logged, and the file system is the one the failed call left. *)
Theorem makedirs_failure_uncaught {R : Runtime} (argv : list string)
    (s : FS) (method n : Z) (data out : bytes) (s1 : FS) (e : exn) :
  List.length argv = 5%nat ->
  py_int (arg argv 1) = inr method ->
  py_int (arg argv 4) = inr n ->
  read_file s (arg argv 2) = inr data ->
  fst (fst (dispatch (Some 1) method data n s)) = Ret (Some out) ->
  makedirs s (dirname (arg argv 3)) = (s1, Some e) ->
  main argv s
  = (Raise e, s1,
     ReadFile (arg argv 2)
     :: (snd (dispatch (Some 1) method data n s)
         ++ [Makedirs (dirname (arg argv 3))])%list)
  /\ (forall (p : string) (c : bytes),
        ~ In (WriteFile p c) (snd (main argv s)))
  /\ error_log_lines (snd (main argv s)) = [].
Proof.
  intros Hlen Hmethod Hsize Hread Hout Hmk.
  rewrite (main_run argv s Hlen), Hmethod, Hsize, Hread.
  pose proof (dispatch_frame (Some 1) method data n s) as F.
  pose proof (dispatch_shapes (Some 1) method data n s) as G.
  destruct (dispatch (Some 1) method data n s) as [[r s0] t].
  destruct F as (-> & Hmsg & _). simpl in Hout. subst r.
  destruct G as (_ & _ & Hlog).
  rewrite finish_run. cbv zeta. rewrite Hmk.
  split; [reflexivity |]. split.
  - intros p c [H | H]; [discriminate H |].
    apply in_app_or in H. destruct H as [H | [H | []]]; [| discriminate H].
    exact (messages_write_nothing t p c Hmsg H).
  - cbn [snd error_log_lines]. rewrite error_log_lines_app, Hlog.
    reflexivity.
Qed.

(** A directory that cannot be created on a read-only volume. *)
Lemma makedirs_failure_uncaught_witness :
  main (R := ReadOnly.runtime)
    ["process_data.py"; "0"; "hello.bin"; "new/hello"; "11"] Sample.disk
  = (Raise (ReadOnly.permission_denied "new"), Sample.disk,
     [ReadFile "hello.bin"; Makedirs "new"]).
Proof.
  apply (makedirs_failure_uncaught (R := ReadOnly.runtime)
           ["process_data.py"; "0"; "hello.bin"; "new/hello"; "11"]
           Sample.disk 0 11 (Sample.b "hello world") (Sample.b "hello world")
           Sample.disk (ReadOnly.permission_denied "new"));
    reflexivity.
Defined.
